(** * risk-tools: Monte Carlo price simulation and jump calibration

    A shallow embedding of [src/monte-carlo/calibration.py]:

    - [monte_carlo_simulation] (source lines 7-76), split along the source's
      own comments into [extract_data] (lines 22-28, "calculate returns" and
      "extract data") and [generate_simulations] (lines 29-55, "generate MC
      simulations" and "cap simulated prices");
    - [generate_jump_diffusion_returns] (lines 79-103);
    - [calibrate_jump_diffusion_params] (lines 107-118).

    Numbers.  A NumPy/pandas [float64] is modelled by [float64] below: an
    exact real number, or one of the three IEEE special values the code can
    produce (plus infinity, minus infinity, NaN).  Sums, products and
    quotients of finite values are exact: rounding, the overflow of a sum or
    a product and the sign of zero are not represented.  [np.exp] does
    overflow and underflow, as it does in the code at exponents of ordinary
    size.  The special values follow IEEE-754, which is what NumPy and pandas
    do on division by zero, on [0/0] and on the mean of nothing.  What is
    proved of the simulated prices is stated so that it does not rest on the
    exactness of a product.

    Randomness.  NumPy's global generator is an explicit state threaded
    through the code; the generator itself (Mersenne Twister and the
    samplers built on it) is a parameter, [NumpyRandom]. *)

From Stdlib Require Import Reals Lra Lia ZArith List String Bool.
From stdpp Require Import base gmap strings.
Import ListNotations.

Local Open Scope R_scope.

(** ** Floating-point values *)

Inductive float64 : Type :=
| Fin (r : R)
| PInf
| NInf
| NaN.

Definition isnan (x : float64) : bool :=
  match x with NaN => true | _ => false end.

Definition fneg (x : float64) : float64 :=
  match x with
  | Fin r => Fin (- r)
  | PInf => NInf
  | NInf => PInf
  | NaN => NaN
  end.

(** [r * inf] for a finite [r]: the infinity of the sign of [r], NaN at 0. *)
Definition signed_inf (r : R) : float64 :=
  if Rlt_dec 0 r then PInf else if Rlt_dec r 0 then NInf else NaN.

Definition fadd (x y : float64) : float64 :=
  match x, y with
  | NaN, _ => NaN
  | _, NaN => NaN
  | Fin a, Fin b => Fin (a + b)
  | PInf, NInf => NaN
  | NInf, PInf => NaN
  | PInf, _ => PInf
  | _, PInf => PInf
  | NInf, _ => NInf
  | _, NInf => NInf
  end.

Definition fsub (x y : float64) : float64 := fadd x (fneg y).

Definition fmul (x y : float64) : float64 :=
  match x, y with
  | NaN, _ => NaN
  | _, NaN => NaN
  | Fin a, Fin b => Fin (a * b)
  | Fin a, PInf => signed_inf a
  | PInf, Fin a => signed_inf a
  | Fin a, NInf => fneg (signed_inf a)
  | NInf, Fin a => fneg (signed_inf a)
  | PInf, PInf => PInf
  | NInf, NInf => PInf
  | PInf, NInf => NInf
  | NInf, PInf => NInf
  end.

Definition fdiv (x y : float64) : float64 :=
  match x, y with
  | NaN, _ => NaN
  | _, NaN => NaN
  | Fin a, Fin b => if Req_dec_T b 0 then signed_inf a else Fin (a / b)
  | Fin _, PInf => Fin 0
  | Fin _, NInf => Fin 0
  | PInf, Fin b => if Rlt_dec b 0 then NInf else PInf
  | NInf, Fin b => if Rlt_dec b 0 then PInf else NInf
  | _, _ => NaN
  end.

(** [x ** 2]. *)
Definition fsquare (x : float64) : float64 := fmul x x.

Definition fabs (x : float64) : float64 :=
  match x with
  | Fin r => Fin (Rabs r)
  | PInf => PInf
  | NInf => PInf
  | NaN => NaN
  end.

(** [np.exp] overflows to infinity above the logarithm of the largest
    double and underflows to 0 below the logarithm of [2^-1075]; the two
    bounds are given to the last decimal of a double. *)
Definition exp_overflow : R := 709.782712893384.
Definition exp_underflow : R := -745.1332191019412.

Definition fexp (x : float64) : float64 :=
  match x with
  | Fin r =>
      if Rlt_dec exp_overflow r then PInf
      else if Rlt_dec r exp_underflow then Fin 0
      else Fin (exp r)
  | PInf => PInf
  | NInf => Fin 0
  | NaN => NaN
  end.

(** [np.sqrt]: NaN on a negative argument. *)
Definition fsqrt (x : float64) : float64 :=
  match x with
  | Fin r => if Rlt_dec r 0 then NaN else Fin (sqrt r)
  | PInf => PInf
  | NInf => NaN
  | NaN => NaN
  end.

(** [x > y]: false as soon as one side is NaN. *)
Definition fgt (x y : float64) : bool :=
  match x, y with
  | Fin a, Fin b => if Rlt_dec b a then true else false
  | PInf, Fin _ => true
  | PInf, NInf => true
  | Fin _, NInf => true
  | _, _ => false
  end.

(** [np.maximum] and [np.minimum] propagate NaN. *)
Definition maximum (x y : float64) : float64 :=
  if isnan x then x else if isnan y then y else if fgt y x then y else x.

Definition minimum (x y : float64) : float64 :=
  if isnan x then x else if isnan y then y else if fgt x y then y else x.

(** [np.clip(x, a_min, a_max)] is [minimum(maximum(x, a_min), a_max)]. *)
Definition clip (x a_min a_max : float64) : float64 :=
  minimum (maximum x a_min) a_max.

(** A Python [int] used where a float is expected. *)
Definition of_int (z : Z) : float64 := Fin (IZR z).

Definition of_len (n : nat) : float64 := Fin (INR n).

(** ** Vectors and matrices *)

Definition matrix (A : Type) : Type := list (list A).

(** [np.sum] over a one-dimensional array. *)
Definition fsum (l : list float64) : float64 := fold_left fadd l (Fin 0).

Definition mmap {A B : Type} (f : A -> B) (m : matrix A) : matrix B :=
  map (map f) m.

Definition mzip {A B C : Type} (f : A -> B -> C) (m : matrix A) (k : matrix B)
  : matrix C :=
  zip_with (zip_with f) m k.

Definition mzip3 {A B C D : Type} (f : A -> B -> C -> D) (a : matrix A)
  (b : matrix B) (c : matrix C) : matrix D :=
  mzip (fun g z => g z) (mzip f a b) c.

(** [np.cumprod(m, axis=0)]: running product down the rows. *)
Fixpoint cumprod_from (acc : list float64) (rows : matrix float64)
  : matrix float64 :=
  match rows with
  | [] => []
  | r :: rest =>
      let acc' := zip_with fmul acc r in
      acc' :: cumprod_from acc' rest
  end.

Definition cumprod (m : matrix float64) : matrix float64 :=
  match m with
  | [] => []
  | r :: rest => r :: cumprod_from r rest
  end.

(** ** NumPy statistics: [np.mean] and [np.std] (population, [ddof=0]) *)

Definition np_mean (a : list float64) : float64 :=
  fdiv (fsum a) (of_len (length a)).

Definition np_std (a : list float64) : float64 :=
  let m := np_mean a in
  fsqrt (np_mean (map (fun x => fsquare (fabs (fsub x m))) a)).

(** ** pandas Series *)

(** A Series is a list of (index label, value); a DataFrame column is the list
    of its values, labelled [0 .. n-1]. *)
Definition Series : Type := list (nat * float64).

Definition column (values : list float64) : Series :=
  combine (seq 0 (length values)) values.

(** [Series.pct_change()]: NaN in the first row, then [x_i / x_(i-1) - 1]. *)
Fixpoint pct_change_from (prev : float64) (values : list float64)
  : list float64 :=
  match values with
  | [] => []
  | x :: rest => fsub (fdiv x prev) (Fin 1) :: pct_change_from x rest
  end.

Definition pct_change (values : list float64) : list float64 :=
  match values with
  | [] => []
  | x :: rest => NaN :: pct_change_from x rest
  end.

(** [Series.dropna()]: the rows whose value is not NaN, labels kept. *)
Definition dropna (s : Series) : Series :=
  List.filter (fun iv => negb (isnan (snd iv))) s.

Fixpoint loc (s : Series) (i : nat) : option float64 :=
  match s with
  | [] => None
  | (j, v) :: rest => if Nat.eqb i j then Some v else loc rest i
  end.

(** [df[name] = s] on a frame of [n] rows: the Series is aligned on the
    frame's index, and a row the Series has no label for becomes NaN. *)
Definition setitem (n : nat) (s : Series) : list float64 :=
  map (fun i => match loc s i with Some v => v | None => NaN end) (seq 0 n).

(** pandas reductions skip NaN ([skipna=True]). *)
Definition notna (values : list float64) : list float64 :=
  List.filter (fun x => negb (isnan x)) values.

(** [Series.mean()]: NaN when nothing is left after skipping NaN. *)
Definition pd_mean (values : list float64) : float64 :=
  let v := notna values in
  match length v with
  | O => NaN
  | S _ => fdiv (fsum v) (of_len (length v))
  end.

(** [Series.std()]: pandas' default [ddof=1]; NaN when [count <= ddof]. *)
Definition pd_std (values : list float64) : float64 :=
  let v := notna values in
  let count := length v in
  if (count <=? 1)%nat then NaN
  else
    let avg := fdiv (fsum v) (of_len count) in
    let sqr := map (fun x => fsquare (fsub avg x)) v in
    fsqrt (fdiv (fsum sqr) (Fin (INR count - 1))).

(** ** Python exceptions *)

Inductive Exception : Type :=
| IndexError
| KeyError
| ZeroDivisionError
| ValueError
| UnboundLocalError.

Definition class_name (e : Exception) : string :=
  match e with
  | IndexError => "IndexError"
  | KeyError => "KeyError"
  | ZeroDivisionError => "ZeroDivisionError"
  | ValueError => "ValueError"
  | UnboundLocalError => "UnboundLocalError"
  end.

Definition result (A : Type) : Type := Exception + A.

(** ** The historical statistics (source lines 22-28)

    [adj_close] is the "Adj Close" column of the downloaded frame; the
    download itself is outside the model.  Prices are finite numbers. *)

Record Statistics : Type := {
  initial_price : float64;
  drift : float64;
  volatility : float64
}.

Definition daily_return (close : list float64) : list float64 :=
  setitem (length close) (dropna (column (pct_change close))).

Definition extract_data (adj_close : list R) (lookback_days : Z)
  : result Statistics :=
  let close := map Fin adj_close in
  let returns := daily_return close in
  (* iloc[-1] *)
  match rev close with
  | [] => inl IndexError
  | last_price :: _ =>
      inr {| initial_price := last_price;
             drift := fmul (pd_mean returns) (of_int lookback_days);
             volatility :=
               fmul (pd_std returns) (fsqrt (of_int lookback_days)) |}
  end.

(** ** Jump calibration (source lines 107-118) *)

Definition positive (returns : list float64) : list float64 :=
  List.filter (fun x => fgt x (Fin 0)) returns.

Definition calibrate_jump_diffusion_params (returns : list float64)
  : result (gmap string float64) :=
  let mean_jump_size := np_mean (positive returns) in
  let std_jump_size := np_std (positive returns) in
  match length returns with
  | O => inl ZeroDivisionError
  | S _ =>
      let jump_intensity :=
        Fin (INR (length (positive returns)) / INR (length returns)) in
      inr (<["jump_size_mean" := mean_jump_size]>
           (<["jump_size_std" := std_jump_size]>
            (<["jump_intensity" := jump_intensity]> ∅)))
  end.

(** ** NumPy's global random generator

    [np.random.seed(n)] replaces the global state; every sample reads and
    advances it.  [legacy_gauss] is one standard-normal draw and
    [legacy_poisson lam] one Poisson draw of rate [lam], as in NumPy's
    legacy [RandomState]. *)

Class NumpyRandom : Type := {
  RandomState : Type;
  init_by_seed : Z -> RandomState;
  legacy_gauss : RandomState -> R * RandomState;
  legacy_poisson : float64 -> RandomState -> Z * RandomState
}.

(** [POISSON_LAM_MAX] of NumPy: [int64 max - sqrt(int64 max) * 10]. *)
Definition int64_max : R := IZR 9223372036854775807.
Definition POISSON_LAM_MAX : R := int64_max - sqrt int64_max * 10.

(** The days simulated forward (source line 29). *)
Definition days : Z := 252.

Section Simulation.

Context {G : NumpyRandom}.

(** Python code that reads and writes the global generator and may raise. *)
Definition Py (A : Type) : Type := RandomState -> result A * RandomState.

Definition ret {A : Type} (a : A) : Py A := fun s => (inr a, s).

Definition raise {A : Type} (e : Exception) : Py A := fun s => (inl e, s).

Definition bind {A B : Type} (m : Py A) (k : A -> Py B) : Py B :=
  fun s =>
    match m s with
    | (inl e, s') => (inl e, s')
    | (inr a, s') => k a s'
    end.

Definition lift {A : Type} (r : result A) : Py A := fun s => (r, s).

Notation "x <- m ;; k" := (bind m (fun x => k))
  (at level 100, m at next level, right associativity).
Notation "m ;;; k" := (bind m (fun _ => k))
  (at level 100, right associativity).

(** [np.random.seed(n)]. *)
Definition seed (n : Z) : Py unit := fun _ => (inr tt, init_by_seed n).

(** Filling an array of shape [(rows, cols)] in row-major order. *)
Fixpoint draw_row {A : Type} (sample : RandomState -> A * RandomState)
  (cols : nat) (s : RandomState) : list A * RandomState :=
  match cols with
  | O => ([], s)
  | S n =>
      let (x, s1) := sample s in
      let (xs, s2) := draw_row sample n s1 in
      (x :: xs, s2)
  end.

Fixpoint draw_rows {A : Type} (sample : RandomState -> A * RandomState)
  (rows cols : nat) (s : RandomState) : matrix A * RandomState :=
  match rows with
  | O => ([], s)
  | S n =>
      let (r, s1) := draw_row sample cols s in
      let (rs, s2) := draw_rows sample n cols s1 in
      (r :: rs, s2)
  end.

(** A negative dimension is a [ValueError].  The upper limits on the size
    of an array (the largest dimension, the memory there is) are not
    represented. *)
Definition random_array {A : Type} (sample : RandomState -> A * RandomState)
  (rows cols : Z) : Py (matrix A) :=
  if ((rows <? 0) || (cols <? 0))%Z then raise ValueError
  else fun s =>
         let (m, s') := draw_rows sample (Z.to_nat rows) (Z.to_nat cols) s in
         (inr m, s').

(** The array drawn from state [s], and the state after the draw. *)
Definition drawn {A : Type} (sample : RandomState -> A * RandomState)
  (rows cols : Z) (s : RandomState) : matrix A :=
  fst (draw_rows sample (Z.to_nat rows) (Z.to_nat cols) s).

Definition after {A : Type} (sample : RandomState -> A * RandomState)
  (rows cols : Z) (s : RandomState) : RandomState :=
  snd (draw_rows sample (Z.to_nat rows) (Z.to_nat cols) s).

(** One draw of [np.random.normal(loc, scale)]: [loc + scale * gauss]. *)
Definition normal_sample (loc scale : float64) (s : RandomState)
  : float64 * RandomState :=
  let (z, s') := legacy_gauss s in (fadd loc (fmul scale (Fin z)), s').

(** [np.random.normal(loc, scale, size=(rows, cols))]: [scale < 0] is a
    [ValueError].  NumPy tests the sign bit, and so rejects a negative zero
    as well, which the model, with its one zero, cannot tell from zero. *)
Definition random_normal (loc scale : float64) (rows cols : Z)
  : Py (matrix float64) :=
  if fgt (Fin 0) scale then raise ValueError
  else random_array (normal_sample loc scale) rows cols.

(** [np.random.poisson(lam, size=(rows, cols))]: a negative, NaN or too
    large [lam] is a [ValueError]. *)
Definition random_poisson (lam : float64) (rows cols : Z) : Py (matrix Z) :=
  if fgt (Fin 0) lam || isnan lam || fgt lam (Fin POISSON_LAM_MAX)
  then raise ValueError
  else random_array (legacy_poisson lam) rows cols.

(** ** Jump-diffusion returns (source lines 79-103) *)

Definition generate_jump_diffusion_returns
  (jump_size_mean jump_size_std jump_intensity drift volatility : float64)
  (days simulations : Z) : Py (matrix float64) :=
  seed 42 ;;;
  dt <- (if (days =? 0)%Z then raise ZeroDivisionError
         else ret (Fin (1 / IZR days))) ;;
  jump_process <- random_poisson (fmul jump_intensity dt) days simulations ;;
  jump_sizes <- random_normal jump_size_mean jump_size_std days simulations ;;
  let jump_returns := mzip fmul jump_sizes (mmap of_int jump_process) in
  let drift_returns :=
    fmul (fsub drift (fmul (Fin 0.5) (fsquare volatility))) dt in
  shocks <- random_normal (Fin 0) (fsqrt dt) days simulations ;;
  let diffusion_returns := mmap (fmul volatility) shocks in
  let total_returns :=
    mmap (fun x => fsub (fexp x) (Fin 1))
      (mzip fadd (mmap (fadd drift_returns) diffusion_returns) jump_returns) in
  ret (mmap (fadd (Fin 1)) total_returns).

(** The three arrays [generate_jump_diffusion_returns] draws after seeding,
    in the order it draws them: the Poisson jump counts, the standard-normal
    draws behind the jump sizes, and those behind the diffusion. *)
Definition jump_counts (lam : float64) (days simulations : Z) : matrix Z :=
  drawn (legacy_poisson lam) days simulations (init_by_seed 42).

Definition after_jump_counts (lam : float64) (days simulations : Z)
  : RandomState :=
  after (legacy_poisson lam) days simulations (init_by_seed 42).

Definition jump_shocks (lam : float64) (days simulations : Z) : matrix R :=
  drawn legacy_gauss days simulations (after_jump_counts lam days simulations).

Definition after_jump_shocks (lam : float64) (days simulations : Z)
  : RandomState :=
  after legacy_gauss days simulations (after_jump_counts lam days simulations).

Definition diffusion_shocks (lam : float64) (days simulations : Z)
  : matrix R :=
  drawn legacy_gauss days simulations (after_jump_shocks lam days simulations).

(** ** Path generation (source lines 29-55) *)

(** Truthiness of [jump_params]: [None] and the empty dict are falsy. *)
Definition truthy (jump_params : option (gmap string float64)) : bool :=
  match jump_params with
  | None => false
  | Some d => negb (bool_decide (d = ∅))
  end.

(** [jump_params[key]]. *)
Definition getitem (jump_params : option (gmap string float64)) (key : string)
  : Py float64 :=
  match jump_params with
  | None => raise KeyError
  | Some d =>
      match d !! key with
      | Some v => ret v
      | None => raise KeyError
      end
  end.

(** The [if]/[elif] chain of lines 33-51; [None] is the local variable
    [daily_returns] left unbound when no branch is taken. *)
Definition daily_returns (st : Statistics) (distribution : string)
  (simulations : Z) (jump_params : option (gmap string float64))
  : Py (option (matrix float64)) :=
  let drift := drift st in
  let volatility := volatility st in
  if String.eqb distribution "lognormal" then
    z <- random_normal (Fin 0) (Fin 1) days simulations ;;
    ret (Some (mmap (fun z =>
                       fexp (fadd (fsub drift
                                     (fmul (Fin 0.5) (fsquare volatility)))
                               (fmul volatility z))) z))
  else if String.eqb distribution "normal" then
    z <- random_normal (Fin 0) (Fin 1) days simulations ;;
    ret (Some (mmap (fun z =>
                       fadd (fsub drift (fmul (Fin 0.5) (fsquare volatility)))
                         (fmul volatility z)) z))
  else if String.eqb distribution "jump_diffusion" && truthy jump_params then
    jump_size_mean <- getitem jump_params "jump_size_mean" ;;
    jump_size_std <- getitem jump_params "jump_size_std" ;;
    jump_intensity <- getitem jump_params "jump_intensity" ;;
    r <- generate_jump_diffusion_returns jump_size_mean jump_size_std
           jump_intensity drift volatility days simulations ;;
    ret (Some r)
  else ret None.

Definition a_min : R := 0.01.
Definition a_max : R := 3000.

Definition generate_simulations (st : Statistics) (distribution : string)
  (simulations : Z) (jump_params : option (gmap string float64))
  : Py (matrix float64) :=
  seed 42 ;;;
  bound <- daily_returns st distribution simulations jump_params ;;
  match bound with
  | None => raise UnboundLocalError
  | Some daily_returns =>
      let price_simulations :=
        mmap (fmul (initial_price st)) (cumprod daily_returns) in
      ret (mmap (fun x => clip x (Fin a_min) (Fin a_max)) price_simulations)
  end.

(** ** The whole of [monte_carlo_simulation] (source lines 7-76)

    The figure is represented by what it is drawn from: the matrix of
    simulated prices and the three annotated values. *)

Record Figure : Type := {
  price_simulations : matrix float64;
  annotation : Statistics
}.

Definition monte_carlo_simulation (adj_close : list R) (lookback_days : Z)
  (distribution : string) (simulations : Z)
  (jump_params : option (gmap string float64)) : Py Figure :=
  st <- lift (extract_data adj_close lookback_days) ;;
  prices <- generate_simulations st distribution simulations jump_params ;;
  ret {| price_simulations := prices; annotation := st |}.

End Simulation.

(** ** The statistics the specification speaks of, on real numbers *)

(** The simple period-over-period returns of a price series. *)
Fixpoint simple_returns_from (prev : R) (prices : list R) : list R :=
  match prices with
  | [] => []
  | p :: rest => (p / prev - 1) :: simple_returns_from p rest
  end.

Definition simple_returns (prices : list R) : list R :=
  match prices with
  | [] => []
  | p :: rest => simple_returns_from p rest
  end.

Definition Rsum (l : list R) : R := fold_right Rplus 0 l.

Definition Rmean (l : list R) : R := Rsum l / INR (length l).

(** The sum of the squared deviations from the mean. *)
Definition sq_dev (l : list R) : R :=
  Rsum (map (fun x => (x - Rmean l) * (x - Rmean l)) l).

(** The standard deviation of the values of [l] (divisor [n]). *)
Definition stddev (l : list R) : R := sqrt (sq_dev l / INR (length l)).

(** The sample standard deviation, with Bessel's correction (divisor
    [n - 1]). *)
Definition sample_stddev (l : list R) : R :=
  sqrt (sq_dev l / (INR (length l) - 1)).

(** The strictly positive values of a series. *)
Definition Rpositive (l : list R) : list R :=
  List.filter (fun r => if Rlt_dec 0 r then true else false) l.

(** The exponent of the per-period growth factor of the jump-diffusion
    model as the specification writes it, for a standard-normal shock [z], a
    jump-size shock [jump_size] and a jump count [jumps]. *)
Definition growth_exponent (drift volatility dt z jump_size : R) (jumps : Z)
  : R :=
  let driftTerm := (drift - 0.5 * (volatility * volatility)) * dt in
  let diffusionTerm := volatility * sqrt dt * z in
  let jumpTerm := jump_size * IZR jumps in
  driftTerm + diffusionTerm + jumpTerm.

(** The growth factor as line 102-103 compute it from the exponent:
    [1 + (np.exp(x) - 1)]. *)
Definition growth_of (x : float64) : float64 :=
  fadd (Fin 1) (fsub (fexp x) (Fin 1)).

(** A float that is not below zero: NaN, plus infinity, or a number that is
    at least 0. *)
Definition never_negative (x : float64) : Prop :=
  x = NaN \/ x = PInf \/ exists r, x = Fin r /\ 0 <= r.

(** The three model tags the code recognises. *)
Definition recognized (distribution : string) : Prop :=
  distribution = "lognormal" \/ distribution = "normal"
  \/ distribution = "jump_diffusion".

(** A dict as [calibrate_jump_diffusion_params] builds it. *)
Definition jump_dict (mean std intensity : float64) : gmap string float64 :=
  <["jump_size_mean" := mean]>
    (<["jump_size_std" := std]> (<["jump_intensity" := intensity]> ∅)).

(** Jump parameters a valid request carries: the three entries are present
    and finite, the deviation is non-negative, the intensity is in [0, 1]. *)
Definition valid_jump_params (jump_params : option (gmap string float64))
  : Prop :=
  exists (dct : gmap string float64) (m sd i : R),
    jump_params = Some dct
    /\ dct !! "jump_size_mean" = Some (Fin m)
    /\ dct !! "jump_size_std" = Some (Fin sd)
    /\ dct !! "jump_intensity" = Some (Fin i)
    /\ 0 <= sd /\ 0 <= i <= 1.

(** A finite number within [lo, hi]. *)
Definition within (lo hi : R) (x : float64) : Prop :=
  exists r, x = Fin r /\ lo <= r <= hi.

Definition shape {A : Type} (rows cols : nat) (m : matrix A) : Prop :=
  length m = rows /\ Forall (fun r => length r = cols) m.

Definition finite (x : float64) : Prop := exists r, x = Fin r.

Definition entries {A : Type} (P : A -> Prop) (m : matrix A) : Prop :=
  Forall (Forall P) m.

(** The price series of the specification's end-to-end scenario, and the
    statistics it leads to, to four decimals. *)
Definition scenario : list R := [100; 101; 99; 102].

Definition rounded_scenario : Statistics :=
  {| initial_price := Fin 102; drift := Fin 0.0068;
     volatility := Fin 0.0252 |}.

(** ** A generator to run the model on

    A counter stands in for the Mersenne Twister: the k-th draw after
    seeding is a fixed function of the seed and of k.  It serves the
    examples; the theorems hold for every generator. *)

Definition counter_gauss (s : Z) : R * Z := (IZR (s mod 5 - 2) / 2, (s + 1)%Z).

Definition counter_poisson (lam : float64) (s : Z) : Z * Z :=
  ((s mod 2)%Z, (s + 1)%Z).

#[export] Instance counter_random : NumpyRandom := {|
  RandomState := Z;
  init_by_seed := fun n => n;
  legacy_gauss := counter_gauss;
  legacy_poisson := counter_poisson
|}.

(** ** The dashboard callback ([dash-app.py], lines 78-105)

    [str.upper] and the download of the "Adj Close" column are outside the
    model; the callback downloads once itself when it calibrates, and
    [monte_carlo_simulation] downloads again with the same arguments. *)

(** [Series.values]. *)
Definition values (s : Series) : list float64 := map snd s.

Section DashApp.

Context {G : NumpyRandom}.

Variable upper : string -> string.
Variable download : string -> string -> string -> list R.

Definition update_plot (selected_stock custom_stock start_date end_date
  : string) (lookback_days : Z) (distribution : string) (simulations : Z)
  : Py Figure :=
  let symbol :=
    if negb (String.eqb custom_stock "") then upper custom_stock
    else selected_stock in
  bind
    (if String.eqb distribution "jump_diffusion" then
       let adj_close := map Fin (download symbol start_date end_date) in
       let returns := values (dropna (column (pct_change adj_close))) in
       bind (lift (calibrate_jump_diffusion_params returns))
         (fun jump_params => ret (Some jump_params))
     else ret None)
    (fun jump_params =>
       monte_carlo_simulation (download symbol start_date end_date)
         lookback_days distribution simulations jump_params).

End DashApp.

(** The keys of a dict that would make [monte_carlo_simulation] take the
    jump-diffusion branch and read all it needs. *)
Definition has_jump_keys (dct : gmap string float64) : Prop :=
  is_Some (dct !! "jump_size_mean") /\ is_Some (dct !! "jump_size_std")
  /\ is_Some (dct !! "jump_intensity").

(** An entry a clipped matrix may hold: NaN, or a number in the range. *)
Definition nan_or_within (lo hi : R) (x : float64) : Prop :=
  x = NaN \/ within lo hi x.

(** The rates [np.random.poisson] accepts. *)
Definition accepted_rate (lam : float64) : Prop :=
  fgt (Fin 0) lam || isnan lam || fgt lam (Fin POISSON_LAM_MAX) = false.

(** The deviations [np.random.normal] accepts. *)
Definition accepted_scale (scale : float64) : Prop :=
  fgt (Fin 0) scale = false.

(** The symbol the callback works on (line 87), and the prices it gets. *)
Definition chosen_symbol (upper : string -> string)
  (selected_stock custom_stock : string) : string :=
  if negb (String.eqb custom_stock "") then upper custom_stock
  else selected_stock.

(** The return series the callback calibrates on (line 92). *)
Definition callback_returns (adj_close : list R) : list float64 :=
  values (dropna (column (pct_change (map Fin adj_close)))).

(** A download that always answers with the same prices, for examples. *)
Definition fixed_download (adj_close : list R) (symbol start_date end_date
  : string) : list R := adj_close.

(** * Properties *)

(** ** Arithmetic on finite values *)

Ltac rdec :=
  repeat match goal with
    | |- context [Rlt_dec ?a ?b] => destruct (Rlt_dec a b); try lra
    | |- context [Req_dec_T ?a ?b] => destruct (Req_dec_T a b); try lra
    end.

Lemma fdiv_Fin (a b : R) : b <> 0 -> fdiv (Fin a) (Fin b) = Fin (a / b).
Proof. intros Hb. unfold fdiv. destruct (Req_dec_T b 0); congruence. Qed.

Lemma fsqrt_Fin (a : R) : 0 <= a -> fsqrt (Fin a) = Fin (sqrt a).
Proof. intros Ha. unfold fsqrt. now rdec. Qed.

Lemma fexp_in_range (r : R) :
  exp_underflow <= r <= exp_overflow -> fexp (Fin r) = Fin (exp r).
Proof.
  intros Hr. unfold fexp.
  destruct (Rlt_dec exp_overflow r) as [H|_]; [lra|].
  destruct (Rlt_dec r exp_underflow) as [H|_]; [lra|reflexivity].
Qed.

Lemma fexp_overflows (r : R) : exp_overflow < r -> fexp (Fin r) = PInf.
Proof.
  intros Hr. unfold fexp.
  destruct (Rlt_dec exp_overflow r) as [_|H]; [reflexivity|lra].
Qed.

Lemma fexp_underflows (r : R) : r < exp_underflow -> fexp (Fin r) = Fin 0.
Proof.
  intros Hr. unfold fexp, exp_underflow, exp_overflow in *.
  destruct (Rlt_dec 709.782712893384 r) as [H|_]; [lra|].
  destruct (Rlt_dec r (-745.1332191019412)) as [_|H]; [reflexivity|lra].
Qed.

(** [np.exp] never returns a negative value, whatever its argument. *)
Lemma fexp_never_negative (x : float64) : never_negative (fexp x).
Proof.
  destruct x as [r| | |]; unfold never_negative, fexp.
  - destruct (Rlt_dec exp_overflow r); [auto|].
    destruct (Rlt_dec r exp_underflow); right; right; eexists;
      (split; [reflexivity|]); [lra|]. left. apply exp_pos.
  - auto.
  - right. right. exists 0. split; [reflexivity|lra].
  - auto.
Qed.

Lemma growth_of_never_negative (x : float64) : never_negative (growth_of x).
Proof.
  unfold growth_of.
  destruct (fexp_never_negative x) as [->|[->|(r & -> & Hr)]].
  - now left.
  - right. now left.
  - right. right. exists (1 + (r + - 1)). split; [reflexivity|lra].
Qed.

Lemma fsum_from (l : list R) (a : R) :
  fold_left fadd (map Fin l) (Fin a) = Fin (a + Rsum l).
Proof.
  revert a. induction l as [|x l IH]; intros a; simpl.
  - f_equal. lra.
  - rewrite IH. f_equal. lra.
Qed.

Lemma fsum_Fin (l : list R) : fsum (map Fin l) = Fin (Rsum l).
Proof. unfold fsum. rewrite fsum_from. f_equal. lra. Qed.

Lemma notna_Fin (l : list R) : notna (map Fin l) = map Fin l.
Proof.
  unfold notna. induction l as [|x l IH]; simpl; [reflexivity|].
  now rewrite IH.
Qed.

Lemma INR_length_pos {A : Type} (l : list A) : l <> [] -> 0 < INR (length l).
Proof.
  intros Hl. destruct l as [|x l]; [congruence|].
  apply lt_0_INR. simpl. lia.
Qed.

Lemma Rsum_squares_nonneg (f : R -> R) (l : list R) :
  0 <= Rsum (map (fun x => f x * f x) l).
Proof.
  induction l as [|x l IH]; simpl; [lra|].
  pose proof (Rle_0_sqr (f x)) as H. unfold Rsqr in H. lra.
Qed.

Lemma sq_dev_nonneg (l : list R) : 0 <= sq_dev l.
Proof. apply (Rsum_squares_nonneg (fun x => x - Rmean l)). Qed.

(** ** NumPy and pandas statistics on finite values *)

Lemma np_mean_Fin (l : list R) :
  l <> [] -> np_mean (map Fin l) = Fin (Rmean l).
Proof.
  intros Hl. unfold np_mean, of_len. rewrite fsum_Fin, length_map.
  apply fdiv_Fin. pose proof (INR_length_pos l Hl). lra.
Qed.

Lemma np_std_Fin (l : list R) :
  l <> [] -> np_std (map Fin l) = Fin (stddev l).
Proof.
  intros Hl. unfold np_std. rewrite (np_mean_Fin l Hl).
  rewrite map_map.
  assert (Hsq : map (fun x => fsquare (fabs (fsub (Fin x) (Fin (Rmean l))))) l
                = map Fin (map (fun x => (x - Rmean l) * (x - Rmean l)) l)).
  { rewrite map_map. apply map_ext. intros x. simpl. f_equal.
    fold (Rminus x (Rmean l)). rewrite <- Rabs_mult.
    apply Rabs_pos_eq. apply Rle_0_sqr. }
  rewrite Hsq. rewrite np_mean_Fin.
  - unfold Rmean at 1. rewrite length_map. apply fsqrt_Fin.
    pose proof (INR_length_pos l Hl). pose proof (sq_dev_nonneg l).
    unfold sq_dev in *. apply Rmult_le_pos; [assumption|].
    left. now apply Rinv_0_lt_compat.
  - destruct l; [congruence|discriminate].
Qed.

Lemma pd_mean_Fin (l : list R) :
  l <> [] -> pd_mean (map Fin l) = Fin (Rmean l).
Proof.
  intros Hl. unfold pd_mean. rewrite notna_Fin.
  destruct l as [|x l]; [congruence|].
  change (length (map Fin (x :: l))) with (S (length (map Fin l))).
  cbv iota. fold (np_mean (map Fin (x :: l))). now apply np_mean_Fin.
Qed.

Lemma pd_std_Fin (l : list R) :
  (2 <= length l)%nat -> pd_std (map Fin l) = Fin (sample_stddev l).
Proof.
  intros Hl. unfold pd_std. rewrite notna_Fin, length_map.
  destruct (Nat.leb_spec (length l) 1) as [Hle|_]; [lia|].
  assert (Hn : 1 < INR (length l)).
  { change 1 with (INR 1). apply lt_INR. lia. }
  rewrite fsum_Fin. unfold of_len. rewrite fdiv_Fin by lra.
  fold (Rmean l). rewrite map_map.
  assert (Hsq : map (fun x => fsquare (fsub (Fin (Rmean l)) (Fin x))) l
                = map Fin (map (fun x => (x - Rmean l) * (x - Rmean l)) l)).
  { rewrite map_map. apply map_ext. intros x. simpl. f_equal. lra. }
  rewrite Hsq, fsum_Fin. fold (sq_dev l). rewrite fdiv_Fin by lra.
  apply fsqrt_Fin. pose proof (sq_dev_nonneg l).
  apply Rmult_le_pos; [assumption|]. left. apply Rinv_0_lt_compat. lra.
Qed.

Lemma pd_std_short (l : list float64) :
  (length (notna l) <= 1)%nat -> pd_std l = NaN.
Proof.
  intros Hl. unfold pd_std.
  destruct (Nat.leb_spec (length (notna l)) 1) as [_|H]; [reflexivity|lia].
Qed.

(** ** Column assignment undoes [dropna] *)

Lemma loc_dropna_column_lt (l : list float64) (k i : nat) :
  (i < k)%nat -> loc (dropna (combine (seq k (length l)) l)) i = None.
Proof.
  revert k. induction l as [|x l IH]; intros k Hi; simpl; [reflexivity|].
  destruct (isnan x); simpl.
  - apply IH. lia.
  - destruct (Nat.eqb_spec i k) as [->|_]; [lia|]. apply IH. lia.
Qed.

Lemma setitem_dropna_from (l : list float64) (k : nat) :
  map (fun i => match loc (dropna (combine (seq k (length l)) l)) i with
                | Some v => v
                | None => NaN
                end) (seq k (length l)) = l.
Proof.
  revert k. induction l as [|x l IH]; intros k; simpl; [reflexivity|].
  destruct x as [r| | |]; simpl.
  1-3: rewrite Nat.eqb_refl; f_equal; rewrite <- (IH (S k)) at 2;
       apply map_ext_in; intros i Hi; apply in_seq in Hi;
       destruct (Nat.eqb_spec i k) as [->|_]; [lia|reflexivity].
  rewrite loc_dropna_column_lt by lia. f_equal. apply IH.
Qed.

Lemma setitem_dropna (l : list float64) :
  setitem (length l) (dropna (column l)) = l.
Proof. apply (setitem_dropna_from l 0). Qed.

Lemma length_pct_change_from (prev : float64) (l : list float64) :
  length (pct_change_from prev l) = length l.
Proof.
  revert prev. induction l as [|x l IH]; intros prev; simpl; [reflexivity|].
  now rewrite IH.
Qed.

Lemma length_pct_change (l : list float64) :
  length (pct_change l) = length l.
Proof.
  destruct l as [|x l]; simpl; [reflexivity|].
  now rewrite length_pct_change_from.
Qed.

(** The column the statistics are taken from is the [pct_change] column
    itself, its leading NaN included. *)
Lemma daily_return_pct_change (close : list float64) :
  daily_return close = pct_change close.
Proof.
  unfold daily_return. rewrite <- (length_pct_change close).
  apply setitem_dropna.
Qed.

Lemma pct_change_from_Fin (prev : R) (prices : list R) :
  prev <> 0 -> Forall (fun p => p <> 0) prices ->
  pct_change_from (Fin prev) (map Fin prices)
  = map Fin (simple_returns_from prev prices).
Proof.
  intros Hprev Hall. revert prev Hprev.
  induction Hall as [|p prices Hp Hall IH]; intros prev Hprev; simpl;
    [reflexivity|].
  destruct (Req_dec_T prev 0) as [E|_]; [contradiction|].
  rewrite IH by assumption. reflexivity.
Qed.

Lemma pct_change_Fin (p : R) (prices : list R) :
  Forall (fun p => p <> 0) (p :: prices) ->
  pct_change (map Fin (p :: prices))
  = NaN :: map Fin (simple_returns (p :: prices)).
Proof.
  intros Hall. inversion Hall as [|? ? Hp Hrest]; subst. simpl.
  f_equal. now apply pct_change_from_Fin.
Qed.

Lemma length_simple_returns_from (prev : R) (prices : list R) :
  length (simple_returns_from prev prices) = length prices.
Proof.
  revert prev. induction prices as [|p l IH]; intros prev; simpl;
    [reflexivity|]. now rewrite IH.
Qed.

(** ** The historical statistics *)

Lemma rev_map_Fin_last (p : R) (prices : list R) :
  exists rest, rev (map Fin (p :: prices)) = Fin (List.last (p :: prices) 0) :: rest.
Proof.
  destruct (exists_last (l := p :: prices)) as [l' [a E]]; [discriminate|].
  rewrite E, last_last, map_app, rev_app_distr. simpl. eauto.
Qed.

Lemma pd_mean_skip (l : list float64) : pd_mean (NaN :: l) = pd_mean l.
Proof. reflexivity. Qed.

Lemma pd_std_skip (l : list float64) : pd_std (NaN :: l) = pd_std l.
Proof. reflexivity. Qed.

(** What lines 22-28 compute on a series of non-zero prices, in terms of the
    pandas reductions of the simple returns. *)
Lemma extract_data_returns (p : R) (prices : list R) (lookback_days : Z) :
  Forall (fun p => p <> 0) (p :: prices) ->
  extract_data (p :: prices) lookback_days
  = inr {| initial_price := Fin (List.last (p :: prices) 0);
           drift := fmul (pd_mean (map Fin (simple_returns (p :: prices))))
                      (of_int lookback_days);
           volatility :=
             fmul (pd_std (map Fin (simple_returns (p :: prices))))
               (fsqrt (of_int lookback_days)) |}.
Proof.
  intros Hall. unfold extract_data.
  destruct (rev_map_Fin_last p prices) as [rest ->].
  rewrite daily_return_pct_change, (pct_change_Fin p prices Hall).
  now rewrite pd_mean_skip, pd_std_skip.
Qed.

Lemma nonzero_of_positive (prices : list R) :
  Forall (fun p => 0 < p) prices -> Forall (fun p => p <> 0) prices.
Proof. intros H. eapply List.Forall_impl; [|exact H]. intros p Hp. simpl in Hp. lra. Qed.

Lemma sqrt_between (a b x : R) :
  0 <= a -> 0 <= b -> a * a < x < b * b -> a < sqrt x < b.
Proof.
  intros Ha Hb [Hl Hu].
  assert (Hx : 0 <= x) by nra.
  assert (H1 : sqrt (a * a) < sqrt x) by (apply sqrt_lt_1; nra).
  assert (H2 : sqrt x < sqrt (b * b)) by (apply sqrt_lt_1; nra).
  rewrite sqrt_square in H1, H2 by assumption. now split.
Qed.

(** C8, as amended: on fewer than two prices the code raises no data error
    of its own.  The empty series fails with Python's [IndexError] when the
    last price is read; a single price gives no error at all, and both
    [drift] and [volatility] are NaN. *)
Theorem extract_data_short (prices : list R) (lookback_days : Z) :
  (length prices < 2)%nat ->
  (prices = [] /\ extract_data prices lookback_days = inl IndexError)
  \/ (exists p, prices = [p]
      /\ extract_data prices lookback_days
         = inr {| initial_price := Fin p; drift := NaN; volatility := NaN |}).
Proof.
  intros Hlen. destruct prices as [|p [|q rest]]; simpl in Hlen; [| |lia].
  - left. split; reflexivity.
  - right. exists p. split; reflexivity.
Qed.

Lemma extract_data_short_witness :
  extract_data [] 21 = inl IndexError.
Proof.
  destruct (extract_data_short [] 21) as [[_ H]|[p [H _]]].
  - simpl. lia.
  - exact H.
  - discriminate H.
Defined.

(** C8 fails on the code: a one-point series raises nothing. *)
Lemma extract_data_one_point_no_error :
  extract_data [100] 21
  = inr {| initial_price := Fin 100; drift := NaN; volatility := NaN |}
  /\ ~ (exists e, extract_data [100] 21 = inl e).
Proof.
  split; [reflexivity|]. intros [e He]. discriminate He.
Qed.

(** C7, as amended: for positive prices and a non-negative lookback, [drift]
    is the mean of the simple returns of the whole series times the lookback,
    and [volatility] is their sample standard deviation (divisor [n - 1])
    times the square root of the lookback; a series of exactly two prices has
    one return only, and its [volatility] is NaN. *)
Theorem extract_data_sample_statistics (prices : list R) (lookback_days : Z) :
  (2 <= length prices)%nat ->
  Forall (fun p => 0 < p) prices ->
  (0 <= lookback_days)%Z ->
  extract_data prices lookback_days
  = inr {| initial_price := Fin (List.last prices 0);
           drift := Fin (Rmean (simple_returns prices) * IZR lookback_days);
           volatility :=
             if (length prices =? 2)%nat then NaN
             else Fin (sample_stddev (simple_returns prices)
                       * sqrt (IZR lookback_days)) |}.
Proof.
  intros Hlen Hpos Hlb.
  destruct prices as [|p [|q rest]]; simpl in Hlen; try lia.
  rewrite extract_data_returns by now apply nonzero_of_positive.
  assert (Hsqrt : fsqrt (of_int lookback_days) = Fin (sqrt (IZR lookback_days))).
  { apply fsqrt_Fin. now apply IZR_le. }
  rewrite pd_mean_Fin by discriminate. rewrite Hsqrt.
  destruct rest as [|q' rest].
  - rewrite pd_std_short by (simpl; lia). reflexivity.
  - rewrite pd_std_Fin.
    + reflexivity.
    + simpl. rewrite length_simple_returns_from. simpl. lia.
Qed.

Lemma extract_data_sample_statistics_witness :
  exists st, extract_data [1; 2; 2] 21 = inr st
             /\ drift st = Fin (Rmean (simple_returns [1; 2; 2]) * 21).
Proof.
  eexists. split.
  - apply (extract_data_sample_statistics [1; 2; 2] 21).
    + simpl. lia.
    + repeat constructor; lra.
    + lia.
  - reflexivity.
Defined.

(** C7 fails on the code: with two prices the volatility is not a number. *)
Lemma extract_data_two_points_nan :
  exists st, extract_data [100; 101] 1 = inr st /\ volatility st = NaN.
Proof.
  eexists. split.
  - apply (extract_data_returns 100 [101] 1). repeat constructor; lra.
  - reflexivity.
Qed.

(** ** The end-to-end scenario *)

Lemma scenario_returns :
  simple_returns scenario = [101 / 100 - 1; 99 / 101 - 1; 102 / 99 - 1].
Proof. reflexivity. Qed.

Lemma scenario_mean :
  Rmean (simple_returns scenario)
  = (101 / 100 - 1 + (99 / 101 - 1 + (102 / 99 - 1 + 0))) / 3.
Proof.
  rewrite scenario_returns. unfold Rmean, Rsum. simpl. f_equal. lra.
Qed.

Lemma scenario_extract :
  extract_data scenario 1
  = inr {| initial_price := Fin 102;
           drift := Fin (Rmean (simple_returns scenario) * 1);
           volatility := Fin (sample_stddev (simple_returns scenario)
                              * sqrt 1) |}.
Proof.
  unfold scenario at 1. rewrite extract_data_returns by (repeat constructor; lra).
  fold scenario.
  rewrite pd_mean_Fin by (rewrite scenario_returns; discriminate).
  rewrite pd_std_Fin by (rewrite scenario_returns; simpl; lia).
  assert (Hsqrt : fsqrt (of_int 1) = Fin (sqrt 1)) by (apply fsqrt_Fin; lra).
  rewrite Hsqrt. reflexivity.
Qed.

Lemma scenario_sample_variance :
  0.02515 * 0.02515
  < sq_dev (simple_returns scenario)
    / (INR (length (simple_returns scenario)) - 1)
  < 0.02525 * 0.02525.
Proof.
  unfold sq_dev. rewrite scenario_mean. rewrite scenario_returns.
  unfold Rsum. simpl. lra.
Qed.

Lemma scenario_sample_stddev :
  0.02515 < sample_stddev (simple_returns scenario) < 0.02525.
Proof.
  unfold sample_stddev. apply sqrt_between; try lra.
  apply scenario_sample_variance.
Qed.

(** C4, as amended: on [100, 101, 99, 102] with a lookback of 1 the returns
    are [0.01, -0.0198, 0.0303] and the drift is 0.0068, to four decimals;
    the volatility is the sample standard deviation, 0.0252. *)
Theorem scenario_statistics :
  exists r1 r2 r3 d v,
    daily_return (map Fin scenario) = [NaN; Fin r1; Fin r2; Fin r3]
    /\ extract_data scenario 1
       = inr {| initial_price := Fin 102; drift := Fin d;
                volatility := Fin v |}
    /\ Rabs (r1 - 0.01) < 0.00005
    /\ Rabs (r2 - - 0.0198) < 0.00005
    /\ Rabs (r3 - 0.0303) < 0.00005
    /\ Rabs (d - 0.0068) < 0.00005
    /\ Rabs (v - 0.0252) < 0.00005.
Proof.
  exists (101 / 100 - 1), (99 / 101 - 1), (102 / 99 - 1).
  exists (Rmean (simple_returns scenario) * 1).
  exists (sample_stddev (simple_returns scenario) * sqrt 1).
  split; [|split; [exact scenario_extract|]].
  - rewrite daily_return_pct_change. unfold scenario.
    rewrite pct_change_Fin by (repeat constructor; lra). reflexivity.
  - rewrite sqrt_1, scenario_mean.
    pose proof scenario_sample_stddev as Hv.
    repeat split; apply Rabs_def1; lra.
Qed.

(** C4 fails on the code: the volatility computed for the scenario exceeds
    0.025, and so is not 0.0205 to any of the stated decimals. *)
Lemma scenario_volatility_not_0_0205 :
  exists st, extract_data scenario 1 = inr st
             /\ exists v, volatility st = Fin v /\ 0.025 < v.
Proof.
  eexists. split; [exact scenario_extract|].
  eexists. split; [reflexivity|].
  rewrite sqrt_1. pose proof scenario_sample_stddev. lra.
Qed.

(** ** Jump calibration *)

Lemma positive_Fin (rs : list R) :
  positive (map Fin rs) = map Fin (Rpositive rs).
Proof.
  unfold positive, Rpositive. induction rs as [|r rs IH]; simpl;
    [reflexivity|].
  destruct (Rlt_dec 0 r); simpl; now rewrite IH.
Qed.

Lemma np_mean_nil : np_mean [] = NaN.
Proof.
  unfold np_mean, fsum, of_len, fdiv, signed_inf. simpl. now rdec.
Qed.

Lemma np_std_nil : np_std [] = NaN.
Proof. unfold np_std. simpl. now rewrite np_mean_nil. Qed.

(** C2: with [n > 0] strictly positive values among the [m] returns, the
    calibrated intensity is [n / m], and the jump-size mean and standard
    deviation are the mean and the standard deviation of the positive
    values. *)
Theorem calibrate_positive_subset (rs : list R) (n m : nat) :
  length rs = m ->
  length (Rpositive rs) = n ->
  (0 < n)%nat ->
  calibrate_jump_diffusion_params (map Fin rs)
  = inr (jump_dict (Fin (Rmean (Rpositive rs)))
           (Fin (stddev (Rpositive rs)))
           (Fin (INR n / INR m))).
Proof.
  intros Hm Hn Hpos. unfold calibrate_jump_diffusion_params.
  assert (Hne : Rpositive rs <> []).
  { intros E. rewrite E in Hn. simpl in Hn. lia. }
  rewrite positive_Fin, (np_mean_Fin _ Hne), (np_std_Fin _ Hne).
  rewrite !length_map, Hm, Hn.
  destruct m as [|m'].
  - destruct rs; [|discriminate]. simpl in Hn. lia.
  - reflexivity.
Qed.

Lemma calibrate_positive_subset_witness :
  calibrate_jump_diffusion_params (map Fin [0.01; -0.02; 0.03])
  = inr (jump_dict (Fin (Rmean (Rpositive [0.01; -0.02; 0.03])))
           (Fin (stddev (Rpositive [0.01; -0.02; 0.03])))
           (Fin (INR 2 / INR 3))).
Proof.
  apply (calibrate_positive_subset [0.01; -0.02; 0.03] 2 3).
  - reflexivity.
  - unfold Rpositive. simpl. now rdec.
  - lia.
Defined.

(** C6, as amended: the code has no error of its own for missing data.  On
    the empty series the division of the two lengths raises Python's
    [ZeroDivisionError]; on a non-empty series without a strictly positive
    value nothing is raised, and the result holds NaN for the jump-size mean
    and standard deviation and 0 for the intensity. *)
Theorem calibrate_without_positive (returns : list float64) :
  positive returns = [] ->
  (returns = [] ->
   calibrate_jump_diffusion_params returns = inl ZeroDivisionError)
  /\ (returns <> [] ->
      calibrate_jump_diffusion_params returns
      = inr (jump_dict NaN NaN (Fin 0))).
Proof.
  intros Hpos. unfold calibrate_jump_diffusion_params.
  rewrite Hpos, np_mean_nil, np_std_nil. split; intros Hr.
  - now rewrite Hr.
  - destruct returns as [|x rest]; [congruence|].
    cbv beta iota. unfold jump_dict. do 5 f_equal.
    change (INR (length (@nil float64))) with 0. lra.
Qed.

Lemma calibrate_without_positive_witness :
  calibrate_jump_diffusion_params [Fin (-0.01); Fin (-0.02)]
  = inr (jump_dict NaN NaN (Fin 0)).
Proof.
  apply (calibrate_without_positive [Fin (-0.01); Fin (-0.02)]).
  - unfold positive. simpl. now rdec.
  - discriminate.
Defined.

(** C6 fails on the code: an all-negative series raises nothing and NaN
    comes back as the jump-size mean and standard deviation. *)
Lemma calibrate_all_negative_returns_nan :
  calibrate_jump_diffusion_params [Fin (-0.01)]
  = inr (jump_dict NaN NaN (Fin 0))
  /\ ~ (exists e, calibrate_jump_diffusion_params [Fin (-0.01)] = inl e).
Proof.
  assert (H : calibrate_jump_diffusion_params [Fin (-0.01)]
              = inr (jump_dict NaN NaN (Fin 0))).
  { unfold calibrate_jump_diffusion_params.
    assert (Hp : positive [Fin (-0.01)] = []).
    { unfold positive. simpl. now rdec. }
    rewrite Hp, np_mean_nil, np_std_nil. cbv beta iota.
    unfold jump_dict. do 5 f_equal.
    change (INR (length (@nil float64))) with 0. lra. }
  split; [exact H|]. intros [e He]. rewrite H in He. discriminate He.
Qed.

(** ** Matrices: shape and entries *)

Lemma length_zip_same {A B C : Type} (f : A -> B -> C) (l : list A)
  (k : list B) (n : nat) :
  length l = n -> length k = n -> length (zip_with f l k) = n.
Proof.
  revert k n. induction l as [|a l IH]; intros [|b k] n Hl Hk; simpl in *;
    try congruence.
  destruct n as [|n]; [discriminate|]. f_equal. apply IH; congruence.
Qed.

Lemma Forall_zip_with {A B C : Type} (f : A -> B -> C) (P : A -> Prop)
  (Q : B -> Prop) (T : C -> Prop) (l : list A) (k : list B) :
  (forall a b, P a -> Q b -> T (f a b)) ->
  Forall P l -> Forall Q k -> Forall T (zip_with f l k).
Proof.
  intros Hf Hl. revert k. induction Hl as [|a l Ha Hl IH]; intros k Hk;
    simpl; [constructor|].
  destruct Hk as [|b k Hb Hk]; constructor; auto.
Qed.

Lemma shape_mmap {A B : Type} (f : A -> B) (m : matrix A) (r c : nat) :
  shape r c m -> shape r c (mmap f m).
Proof.
  intros [Hr Hc]. split; unfold mmap.
  - now rewrite length_map.
  - apply Forall_map. eapply List.Forall_impl; [|exact Hc].
    intros row Hrow. simpl. now rewrite length_map.
Qed.

Lemma shape_mzip {A B C : Type} (f : A -> B -> C) (m : matrix A)
  (k : matrix B) (r c : nat) :
  shape r c m -> shape r c k -> shape r c (mzip f m k).
Proof.
  intros [Hr Hc] [Hr' Hc']. split; unfold mzip.
  - now apply length_zip_same.
  - apply (Forall_zip_with _ _ _ _ _ _
             (fun a b Ha Hb => length_zip_same f a b c Ha Hb) Hc Hc').
Qed.

Lemma entries_mmap {A B : Type} (f : A -> B) (P : A -> Prop) (Q : B -> Prop)
  (m : matrix A) :
  (forall a, P a -> Q (f a)) -> entries P m -> entries Q (mmap f m).
Proof.
  intros Hf Hm. unfold entries, mmap. apply Forall_map.
  eapply List.Forall_impl; [|exact Hm]. intros row Hrow. simpl.
  apply Forall_map. eapply List.Forall_impl; [|exact Hrow]. exact Hf.
Qed.

Lemma entries_mzip {A B C : Type} (f : A -> B -> C) (P : A -> Prop)
  (Q : B -> Prop) (T : C -> Prop) (m : matrix A) (k : matrix B) :
  (forall a b, P a -> Q b -> T (f a b)) ->
  entries P m -> entries Q k -> entries T (mzip f m k).
Proof.
  intros Hf Hm Hk. unfold entries, mzip.
  apply (Forall_zip_with _ (Forall P) (Forall Q) _ _ _); auto.
  intros a b Ha Hb. now apply (Forall_zip_with f P Q T).
Qed.

Lemma entries_True {A : Type} (m : matrix A) : entries (fun _ => True) m.
Proof.
  unfold entries. apply Forall_forall. intros row _.
  apply Forall_forall. auto.
Qed.

Lemma cumprod_from_shape (acc : list float64) (rows : matrix float64)
  (c : nat) :
  length acc = c -> Forall (fun r => length r = c) rows ->
  Forall (fun r => length r = c) (cumprod_from acc rows).
Proof.
  intros Hacc Hrows. revert acc Hacc.
  induction Hrows as [|r rows Hr Hrows IH]; intros acc Hacc; simpl;
    constructor.
  - now apply length_zip_same.
  - apply IH. now apply length_zip_same.
Qed.

Lemma length_cumprod_from (acc : list float64) (rows : matrix float64) :
  length (cumprod_from acc rows) = length rows.
Proof.
  revert acc. induction rows as [|r rows IH]; intros acc; simpl;
    [reflexivity|]. now rewrite IH.
Qed.

Lemma shape_cumprod (m : matrix float64) (r c : nat) :
  shape r c m -> shape r c (cumprod m).
Proof.
  intros [Hr Hc]. destruct m as [|row rest]; [now split|].
  inversion Hc as [|? ? Hrow Hrest]; subst. split; simpl.
  - now rewrite length_cumprod_from.
  - constructor; [reflexivity|]. now apply cumprod_from_shape.
Qed.

(** Clipping a finite price lands in the clamp range. *)
Lemma clip_within (x : float64) :
  finite x -> within a_min a_max (clip x (Fin a_min) (Fin a_max)).
Proof.
  intros [r ->]. unfold clip, maximum, minimum, within, a_min, a_max.
  simpl. destruct (Rlt_dec r 0.01); simpl.
  - destruct (Rlt_dec 3000 0.01); [lra|]. exists 0.01. split; [reflexivity|lra].
  - destruct (Rlt_dec 3000 r).
    + exists 3000. split; [reflexivity|lra].
    + exists r. split; [reflexivity|lra].
Qed.

(** ** The model on small inputs *)

Example clip_nan : clip NaN (Fin a_min) (Fin a_max) = NaN.
Proof. reflexivity. Qed.

Example clip_infinity : clip PInf (Fin a_min) (Fin a_max) = Fin a_max.
Proof. reflexivity. Qed.

Example clip_negative : clip (Fin (-5)) (Fin a_min) (Fin a_max) = Fin a_min.
Proof.
  unfold clip, maximum, minimum, fgt, isnan, a_min, a_max.
  destruct (Rlt_dec (-5) 0.01) as [_|H]; [|lra].
  destruct (Rlt_dec 3000 0.01) as [H|_]; [lra|reflexivity].
Qed.

Example cumprod_two_rows :
  cumprod [[Fin 1; Fin 2]; [Fin 3; Fin 4]]
  = [[Fin 1; Fin 2]; [Fin (1 * 3); Fin (2 * 4)]].
Proof. reflexivity. Qed.

Example pct_change_zero_price : pct_change [Fin 0; Fin 1] = [NaN; PInf].
Proof.
  unfold pct_change, pct_change_from, fdiv, signed_inf.
  destruct (Req_dec_T 0 0) as [_|H]; [|congruence].
  destruct (Rlt_dec 0 1) as [_|H]; [reflexivity|lra].
Qed.

Example daily_return_one_price : daily_return [Fin 100] = [NaN].
Proof. reflexivity. Qed.

Example truthy_empty_dict : truthy (Some ∅) = false.
Proof. reflexivity. Qed.

Example truthy_calibrated :
  truthy (Some (jump_dict (Fin 0.02) (Fin 0.01) (Fin 0.5))) = true.
Proof. reflexivity. Qed.

(** ** The generator and the arrays it fills *)

Section SimulationProperties.

Context {G : NumpyRandom}.

Lemma bind_ok {A B : Type} (m : Py A) (k : A -> Py B) (s s' : RandomState)
  (a : A) :
  m s = (inr a, s') -> bind m k s = k a s'.
Proof. intros H. unfold bind. now rewrite H. Qed.

Lemma draw_row_length {A : Type} (sample : RandomState -> A * RandomState)
  (n : nat) (s : RandomState) :
  length (fst (draw_row sample n s)) = n.
Proof.
  revert s. induction n as [|n IH]; intros s; simpl; [reflexivity|].
  destruct (sample s) as [x s1]. specialize (IH s1).
  destruct (draw_row sample n s1) as [xs s2]. simpl in *. now f_equal.
Qed.

Lemma draw_rows_shape {A : Type} (sample : RandomState -> A * RandomState)
  (r c : nat) (s : RandomState) :
  shape r c (fst (draw_rows sample r c s)).
Proof.
  revert s. induction r as [|r IH]; intros s; simpl.
  - split; [reflexivity|constructor].
  - pose proof (draw_row_length sample c s) as Hrow.
    destruct (draw_row sample c s) as [row s1]. specialize (IH s1).
    destruct (draw_rows sample r c s1) as [rows s2]. simpl in *.
    destruct IH as [Hr Hc]. split; simpl; [now f_equal|now constructor].
Qed.

Lemma drawn_shape {A : Type} (sample : RandomState -> A * RandomState)
  (rows cols : Z) (s : RandomState) :
  shape (Z.to_nat rows) (Z.to_nat cols) (drawn sample rows cols s).
Proof. apply draw_rows_shape. Qed.

Lemma draw_row_map {A B : Type} (f : A -> B)
  (sample : RandomState -> A * RandomState) (n : nat) (s : RandomState) :
  draw_row (fun s => let (z, s') := sample s in (f z, s')) n s
  = (map f (fst (draw_row sample n s)), snd (draw_row sample n s)).
Proof.
  revert s. induction n as [|n IH]; intros s; simpl; [reflexivity|].
  destruct (sample s) as [x s1]. rewrite IH.
  now destruct (draw_row sample n s1).
Qed.

Lemma draw_rows_map {A B : Type} (f : A -> B)
  (sample : RandomState -> A * RandomState) (r c : nat) (s : RandomState) :
  draw_rows (fun s => let (z, s') := sample s in (f z, s')) r c s
  = (mmap f (fst (draw_rows sample r c s)), snd (draw_rows sample r c s)).
Proof.
  revert s. induction r as [|r IH]; intros s; simpl; [reflexivity|].
  rewrite draw_row_map. destruct (draw_row sample c s) as [row s1]. simpl.
  rewrite IH. now destruct (draw_rows sample r c s1).
Qed.

Lemma random_array_ok {A : Type} (sample : RandomState -> A * RandomState)
  (rows cols : Z) (s : RandomState) :
  (0 <= rows)%Z -> (0 <= cols)%Z ->
  random_array sample rows cols s
  = (inr (drawn sample rows cols s), after sample rows cols s).
Proof.
  intros Hr Hc. unfold random_array, drawn, after.
  destruct (Z.ltb_spec rows 0) as [?|_]; [lia|].
  destruct (Z.ltb_spec cols 0) as [?|_]; [lia|]. simpl.
  now destruct (draw_rows sample (Z.to_nat rows) (Z.to_nat cols) s).
Qed.

Lemma random_normal_ok (a b : R) (rows cols : Z) (s : RandomState) :
  0 <= b -> (0 <= rows)%Z -> (0 <= cols)%Z ->
  random_normal (Fin a) (Fin b) rows cols s
  = (inr (mmap (fun z => Fin (a + b * z)) (drawn legacy_gauss rows cols s)),
     after legacy_gauss rows cols s).
Proof.
  intros Hb Hr Hc. unfold random_normal. simpl.
  destruct (Rlt_dec b 0) as [?|_]; [lra|].
  rewrite random_array_ok by assumption. unfold drawn, after, normal_sample.
  now rewrite (draw_rows_map (fun z => fadd (Fin a) (fmul (Fin b) (Fin z)))).
Qed.

Lemma POISSON_LAM_MAX_ge_1 : 1 <= POISSON_LAM_MAX.
Proof.
  unfold POISSON_LAM_MAX, int64_max.
  assert (H : 0 < sqrt 9223372036854775807 < 4000000000).
  { apply sqrt_between; lra. }
  lra.
Qed.

Lemma random_poisson_ok (lam : R) (rows cols : Z) (s : RandomState) :
  0 <= lam <= 1 -> (0 <= rows)%Z -> (0 <= cols)%Z ->
  random_poisson (Fin lam) rows cols s
  = (inr (drawn (legacy_poisson (Fin lam)) rows cols s),
     after (legacy_poisson (Fin lam)) rows cols s).
Proof.
  intros Hlam Hr Hc. unfold random_poisson. simpl.
  pose proof POISSON_LAM_MAX_ge_1.
  destruct (Rlt_dec lam 0) as [?|_]; [lra|].
  destruct (Rlt_dec POISSON_LAM_MAX lam) as [?|_]; [lra|]. simpl.
  now apply random_array_ok.
Qed.

(** ** Jump-diffusion returns *)

Lemma mmap_mmap {A B C : Type} (f : B -> C) (g : A -> B) (m : matrix A) :
  mmap f (mmap g m) = mmap (fun x => f (g x)) m.
Proof.
  unfold mmap. rewrite map_map. apply map_ext. intros row.
  now rewrite map_map.
Qed.

Lemma zip_with_map {A A' B B' C : Type} (f : A' -> B' -> C) (g : A -> A')
  (h : B -> B') (l : list A) (k : list B) :
  zip_with f (map g l) (map h k) = zip_with (fun x y => f (g x) (h y)) l k.
Proof.
  revert k. induction l as [|a l IH]; intros [|b k]; simpl; try reflexivity.
  now rewrite IH.
Qed.

Lemma mzip_mmap {A A' B B' C : Type} (f : A' -> B' -> C) (g : A -> A')
  (h : B -> B') (m : matrix A) (k : matrix B) :
  mzip f (mmap g m) (mmap h k) = mzip (fun x y => f (g x) (h y)) m k.
Proof.
  unfold mzip, mmap. revert k.
  induction m as [|a m IH]; intros [|b k]; simpl; try reflexivity.
  now rewrite IH, zip_with_map.
Qed.

Lemma row_fuse {A : Type} (k : A -> float64) (f : float64 -> float64 -> A)
  (g : R -> float64) (h : R -> Z -> float64) (F : Z -> R -> R -> float64)
  (zs ws : list R) (ns : list Z) :
  (forall n w z, k (f (g z) (h w n)) = F n w z) ->
  map k (zip_with f (map g zs) (zip_with h ws ns))
  = zip_with (fun a z => a z) (zip_with F ns ws) zs.
Proof.
  intros HF. revert ws ns.
  induction zs as [|z zs IH]; intros [|w ws] [|n ns]; simpl; try reflexivity.
  now rewrite HF, IH.
Qed.

Lemma matrix_fuse {A : Type} (k : A -> float64)
  (f : float64 -> float64 -> A) (g : R -> float64) (h : R -> Z -> float64)
  (F : Z -> R -> R -> float64) (Zs W : matrix R) (N : matrix Z) :
  (forall n w z, k (f (g z) (h w n)) = F n w z) ->
  mmap k (mzip f (mmap g Zs) (mzip h W N)) = mzip3 F N W Zs.
Proof.
  intros HF. unfold mzip3, mzip, mmap. revert W N.
  induction Zs as [|z Zs IH]; intros [|w W] [|n N]; simpl; try reflexivity.
  now rewrite (row_fuse k f g h F z w n HF), IH.
Qed.

Lemma shape_mzip3 {A B C D : Type} (f : A -> B -> C -> D) (a : matrix A)
  (b : matrix B) (c : matrix C) (rows cols : nat) :
  shape rows cols a -> shape rows cols b -> shape rows cols c ->
  shape rows cols (mzip3 f a b c).
Proof.
  intros Ha Hb Hc. unfold mzip3. apply shape_mzip; [|assumption].
  now apply shape_mzip.
Qed.

Lemma entries_mzip3 {A B C D : Type} (f : A -> B -> C -> D) (P : D -> Prop)
  (a : matrix A) (b : matrix B) (c : matrix C) :
  (forall x y z, P (f x y z)) -> entries P (mzip3 f a b c).
Proof.
  intros Hf. unfold mzip3.
  apply (entries_mzip _ (fun g => forall z, P (g z)) (fun _ => True)).
  - intros g z Hg _. apply Hg.
  - apply (entries_mzip f (fun _ => True) (fun _ => True));
      auto using entries_True.
  - apply entries_True.
Qed.

Lemma dt_bounds (days : Z) : (0 < days)%Z -> 0 < 1 / IZR days <= 1.
Proof.
  intros Hd. assert (H1 : 1 <= IZR days) by (apply (IZR_le 1); lia).
  split.
  - apply Rdiv_lt_0_compat; lra.
  - apply Rmult_le_reg_r with (IZR days); [lra|]. field_simplify; lra.
Qed.

(** ** Path generation *)

Lemma generate_simulations_seeded (st : Statistics) (distribution : string)
  (simulations : Z) (jump_params : option (gmap string float64))
  (s : RandomState) :
  generate_simulations st distribution simulations jump_params s
  = generate_simulations st distribution simulations jump_params
      (init_by_seed 42).
Proof. reflexivity. Qed.

Lemma normal_shocks (simulations : Z) (s : RandomState) :
  (0 <= simulations)%Z ->
  random_normal (Fin 0) (Fin 1) days simulations s
  = (inr (mmap (fun z => Fin (0 + 1 * z))
            (drawn legacy_gauss days simulations s)),
     after legacy_gauss days simulations s).
Proof. intros Hs. apply random_normal_ok; [lra|unfold days; lia|lia]. Qed.

Lemma truthy_of_lookup (dct : gmap string float64) (key : string)
  (v : float64) :
  dct !! key = Some v -> truthy (Some dct) = true.
Proof.
  intros Hk. unfold truthy. rewrite bool_decide_eq_false_2; [reflexivity|].
  intros ->. now rewrite lookup_empty in Hk.
Qed.

(** C3: the result does not depend on the state the generator is in when
    the call is made, because each call seeds it anew: two calls on the same
    inputs give the same result. *)
Theorem monte_carlo_simulation_deterministic (adj_close : list R)
  (lookback_days : Z) (distribution : string) (simulations : Z)
  (jump_params : option (gmap string float64)) (s1 s2 : RandomState) :
  fst (monte_carlo_simulation adj_close lookback_days distribution
         simulations jump_params s1)
  = fst (monte_carlo_simulation adj_close lookback_days distribution
           simulations jump_params s2)
  /\ (forall st,
        generate_simulations st distribution simulations jump_params s1
        = generate_simulations st distribution simulations jump_params s2)
  /\ (forall m sd i d v days,
        generate_jump_diffusion_returns m sd i d v days simulations s1
        = generate_jump_diffusion_returns m sd i d v days simulations s2).
Proof.
  split; [|split; reflexivity].
  unfold monte_carlo_simulation, bind, lift.
  destruct (extract_data adj_close lookback_days) as [e|st]; [reflexivity|].
  now rewrite (generate_simulations_seeded st _ _ _ s1),
    (generate_simulations_seeded st _ _ _ s2).
Qed.

(** C5, as amended: jump diffusion without jump parameters takes no branch,
    and reading the unbound [daily_returns] raises Python's
    [UnboundLocalError]; no matrix is returned. *)
Theorem jump_diffusion_without_params (st : Statistics) (simulations : Z)
  (s : RandomState) :
  generate_simulations st "jump_diffusion" simulations None s
  = (inl UnboundLocalError, init_by_seed 42).
Proof. reflexivity. Qed.

Lemma eqb_unrecognized (tag : string) :
  ~ recognized tag ->
  String.eqb tag "lognormal" = false /\ String.eqb tag "normal" = false
  /\ String.eqb tag "jump_diffusion" = false.
Proof.
  intros Hn. repeat split; apply String.eqb_neq; intros ->; apply Hn;
    unfold recognized; auto.
Qed.

(** C10: jump diffusion with falsy jump parameters (the empty dict is one)
    binds no [daily_returns], and the call ends in the same
    [UnboundLocalError] as a call with an unrecognised model tag. *)
Theorem falsy_jump_params_fall_through (st : Statistics) (simulations : Z)
  (jump_params other : option (gmap string float64)) (tag : string)
  (s : RandomState) :
  truthy jump_params = false ->
  ~ recognized tag ->
  daily_returns st "jump_diffusion" simulations jump_params (init_by_seed 42)
  = (inr None, init_by_seed 42)
  /\ generate_simulations st "jump_diffusion" simulations jump_params s
     = (inl UnboundLocalError, init_by_seed 42)
  /\ generate_simulations st tag simulations other s
     = (inl UnboundLocalError, init_by_seed 42).
Proof.
  intros Hfalsy Hn. destruct (eqb_unrecognized tag Hn) as (E1 & E2 & E3).
  assert (Hjd : daily_returns st "jump_diffusion" simulations jump_params
                  (init_by_seed 42) = (inr None, init_by_seed 42)).
  { unfold daily_returns. simpl (String.eqb _ _). cbv iota.
    now rewrite Hfalsy. }
  assert (Htag : daily_returns st tag simulations other (init_by_seed 42)
                 = (inr None, init_by_seed 42)).
  { unfold daily_returns. now rewrite E1, E2, E3. }
  split; [exact Hjd|]. split; unfold generate_simulations.
  - rewrite (bind_ok _ _ s (init_by_seed 42) tt) by reflexivity.
    now rewrite (bind_ok _ _ _ _ _ Hjd).
  - rewrite (bind_ok _ _ s (init_by_seed 42) tt) by reflexivity.
    now rewrite (bind_ok _ _ _ _ _ Htag).
Qed.

End SimulationProperties.

(** ** The theorems on a concrete generator *)

(** C5 fails on the code: the exception raised is not the error the
    specification names. *)
Lemma missing_params_raise_unbound_local :
  fst (generate_simulations (G := counter_random)
         rounded_scenario "jump_diffusion" 30 None 0%Z)
  = inl UnboundLocalError
  /\ class_name UnboundLocalError <> "UnsupportedModelError".
Proof. split; [reflexivity|discriminate]. Qed.

Lemma falsy_jump_params_fall_through_witness :
  generate_simulations (G := counter_random) rounded_scenario
    "jump_diffusion" 30 (Some ∅) 0%Z
  = generate_simulations (G := counter_random) rounded_scenario
      "student_t" 30 None 0%Z.
Proof.
  destruct (falsy_jump_params_fall_through (G := counter_random)
              rounded_scenario 30 (Some ∅) None "student_t" 0%Z)
    as (_ & H1 & H2).
  - reflexivity.
  - intros [H|[H|H]]; discriminate H.
  - now rewrite H1, H2.
Defined.

(** * Further properties of the code *)

(** ** What the generator calls can return *)

Section GeneratorResults.

Context {G : NumpyRandom}.

Lemma bind_inr {A B : Type} (m : Py A) (k : A -> Py B) (s s' : RandomState)
  (b : B) :
  bind m k s = (inr b, s') ->
  exists a s1, m s = (inr a, s1) /\ k a s1 = (inr b, s').
Proof.
  unfold bind. destruct (m s) as [[e|a] s1]; intros H; [discriminate|].
  eauto.
Qed.

Lemma bind_inl {A B : Type} (m : Py A) (k : A -> Py B) (s s' : RandomState)
  (e : Exception) :
  bind m k s = (inl e, s') ->
  m s = (inl e, s') \/ exists a s1, m s = (inr a, s1) /\ k a s1 = (inl e, s').
Proof.
  unfold bind. destruct (m s) as [[e'|a] s1]; intros H;
    [left; now injection H as -> ->|right; eauto].
Qed.

Lemma bind_raise_first {A B : Type} (m : Py A) (k : A -> Py B)
  (s s' : RandomState) (e : Exception) :
  m s = (inl e, s') -> bind m k s = (inl e, s').
Proof. intros H. unfold bind. now rewrite H. Qed.

Lemma random_array_inr {A : Type} (sample : RandomState -> A * RandomState)
  (rows cols : Z) (s s' : RandomState) (M : matrix A) :
  random_array sample rows cols s = (inr M, s') ->
  M = drawn sample rows cols s /\ s' = after sample rows cols s
  /\ (0 <= rows)%Z /\ (0 <= cols)%Z.
Proof.
  unfold random_array.
  destruct (Z.ltb_spec rows 0); destruct (Z.ltb_spec cols 0); simpl;
    try discriminate.
  unfold drawn, after.
  destruct (draw_rows sample (Z.to_nat rows) (Z.to_nat cols) s) as [m s1].
  intros [= <- <-]. auto.
Qed.

Lemma random_array_inl {A : Type} (sample : RandomState -> A * RandomState)
  (rows cols : Z) (s s' : RandomState) (e : Exception) :
  random_array sample rows cols s = (inl e, s') ->
  e = ValueError /\ s' = s.
Proof.
  unfold random_array.
  destruct ((rows <? 0)%Z || (cols <? 0)%Z).
  - intros [= <- <-]. auto.
  - destruct (draw_rows sample (Z.to_nat rows) (Z.to_nat cols) s).
    discriminate.
Qed.

Lemma random_array_negative {A : Type}
  (sample : RandomState -> A * RandomState) (rows cols : Z)
  (s : RandomState) :
  (rows < 0)%Z \/ (cols < 0)%Z ->
  random_array sample rows cols s = (inl ValueError, s).
Proof.
  intros H. unfold random_array.
  destruct (Z.ltb_spec rows 0); destruct (Z.ltb_spec cols 0); simpl;
    try reflexivity. lia.
Qed.

Lemma random_normal_inr (loc scale : float64) (rows cols : Z)
  (s s' : RandomState) (M : matrix float64) :
  random_normal loc scale rows cols s = (inr M, s') ->
  M = mmap (fun z => fadd loc (fmul scale (Fin z)))
        (drawn legacy_gauss rows cols s)
  /\ s' = after legacy_gauss rows cols s
  /\ (0 <= rows)%Z /\ (0 <= cols)%Z.
Proof.
  unfold random_normal. destruct (fgt (Fin 0) scale); [discriminate|].
  intros H. apply random_array_inr in H as (-> & -> & Hr & Hc).
  unfold drawn, after, normal_sample.
  rewrite (draw_rows_map (fun z => fadd loc (fmul scale (Fin z)))).
  auto.
Qed.

Lemma random_normal_inl (loc scale : float64) (rows cols : Z)
  (s s' : RandomState) (e : Exception) :
  random_normal loc scale rows cols s = (inl e, s') ->
  e = ValueError /\ s' = s.
Proof.
  unfold random_normal. destruct (fgt (Fin 0) scale).
  - intros [= <- <-]. auto.
  - apply random_array_inl.
Qed.

Lemma random_poisson_inr (lam : float64) (rows cols : Z)
  (s s' : RandomState) (M : matrix Z) :
  random_poisson lam rows cols s = (inr M, s') ->
  M = drawn (legacy_poisson lam) rows cols s
  /\ s' = after (legacy_poisson lam) rows cols s
  /\ (0 <= rows)%Z /\ (0 <= cols)%Z.
Proof.
  unfold random_poisson.
  destruct (fgt (Fin 0) lam || isnan lam || fgt lam (Fin POISSON_LAM_MAX));
    [discriminate|]. apply random_array_inr.
Qed.

Lemma random_poisson_inl (lam : float64) (rows cols : Z)
  (s s' : RandomState) (e : Exception) :
  random_poisson lam rows cols s = (inl e, s') ->
  e = ValueError /\ s' = s.
Proof.
  unfold random_poisson.
  destruct (fgt (Fin 0) lam || isnan lam || fgt lam (Fin POISSON_LAM_MAX)).
  - intros [= <- <-]. auto.
  - apply random_array_inl.
Qed.

(** ** Every way [generate_jump_diffusion_returns] can end *)

Lemma generate_jump_diffusion_returns_inr
  (jump_size_mean jump_size_std jump_intensity drift volatility : float64)
  (days simulations : Z) (s s' : RandomState) (M : matrix float64) :
  generate_jump_diffusion_returns jump_size_mean jump_size_std jump_intensity
    drift volatility days simulations s = (inr M, s') ->
  shape (Z.to_nat days) (Z.to_nat simulations) M.
Proof.
  unfold generate_jump_diffusion_returns. intros H.
  apply bind_inr in H as (u & s1 & _ & H).
  apply bind_inr in H as (dt & s2 & _ & H).
  apply bind_inr in H as (N & s3 & HN & H).
  apply bind_inr in H as (W & s4 & HW & H).
  apply bind_inr in H as (Zs & s5 & HZ & H).
  apply random_poisson_inr in HN as (-> & _ & _ & _).
  apply random_normal_inr in HW as (-> & _ & _ & _).
  apply random_normal_inr in HZ as (-> & _ & _ & _).
  injection H as <- _.
  repeat (apply shape_mmap || apply shape_mzip); apply drawn_shape.
Qed.

Lemma generate_jump_diffusion_returns_inl
  (jump_size_mean jump_size_std jump_intensity drift volatility : float64)
  (days simulations : Z) (s s' : RandomState) (e : Exception) :
  generate_jump_diffusion_returns jump_size_mean jump_size_std jump_intensity
    drift volatility days simulations s = (inl e, s') ->
  e = ValueError \/ (e = ZeroDivisionError /\ days = 0%Z).
Proof.
  unfold generate_jump_diffusion_returns. intros H.
  apply bind_inl in H as [H|(u & s1 & _ & H)]; [discriminate H|].
  apply bind_inl in H as [H|(dt & s2 & _ & H)].
  { destruct (Z.eqb_spec days 0) as [->|_]; [|discriminate H].
    injection H as <- _. auto. }
  apply bind_inl in H as [H|(N & s3 & _ & H)].
  { apply random_poisson_inl in H as [-> _]. auto. }
  apply bind_inl in H as [H|(W & s4 & _ & H)].
  { apply random_normal_inl in H as [-> _]. auto. }
  apply bind_inl in H as [H|(Zs & s5 & _ & H)].
  { apply random_normal_inl in H as [-> _]. auto. }
  discriminate H.
Qed.

(** ** Every way the model chain can end *)

Lemma daily_returns_inr (st : Statistics) (distribution : string)
  (simulations : Z) (jump_params : option (gmap string float64))
  (s s' : RandomState) (bound : option (matrix float64)) :
  daily_returns st distribution simulations jump_params s = (inr bound, s') ->
  match bound with
  | Some M =>
      shape 252 (Z.to_nat simulations) M
      /\ (distribution = "lognormal" \/ distribution = "normal"
          \/ (distribution = "jump_diffusion" /\ truthy jump_params = true))
  | None =>
      distribution <> "lognormal" /\ distribution <> "normal"
      /\ ~ (distribution = "jump_diffusion" /\ truthy jump_params = true)
  end.
Proof.
  unfold daily_returns.
  destruct (String.eqb_spec distribution "lognormal") as [->|Hl].
  { intros H. apply bind_inr in H as (Zs & s1 & HZ & H).
    apply random_normal_inr in HZ as (-> & _ & _ & _). injection H as <- _.
    split; [|auto]. apply shape_mmap, shape_mmap, drawn_shape. }
  destruct (String.eqb_spec distribution "normal") as [->|Hn].
  { intros H. apply bind_inr in H as (Zs & s1 & HZ & H).
    apply random_normal_inr in HZ as (-> & _ & _ & _). injection H as <- _.
    split; [|auto]. apply shape_mmap, shape_mmap, drawn_shape. }
  destruct (String.eqb_spec distribution "jump_diffusion") as [->|Hj].
  - destruct (truthy jump_params) eqn:Ht; simpl.
    + intros H. apply bind_inr in H as (m & s1 & _ & H).
      apply bind_inr in H as (sd & s2 & _ & H).
      apply bind_inr in H as (i & s3 & _ & H).
      apply bind_inr in H as (r & s4 & Hr & H).
      injection H as <- _.
      apply generate_jump_diffusion_returns_inr in Hr. auto.
    + intros [= <- _]. repeat split; try assumption.
      intros [_ Hc]. discriminate Hc.
  - simpl. intros [= <- _]. repeat split; try assumption.
    intros [Hc _]. contradiction.
Qed.

Lemma getitem_inl (jump_params : option (gmap string float64))
  (key : string) (s s' : RandomState) (e : Exception) :
  getitem jump_params key s = (inl e, s') -> e = KeyError.
Proof.
  unfold getitem. destruct jump_params as [dct|].
  - destruct (dct !! key); [discriminate|]. now intros [= <- _].
  - now intros [= <- _].
Qed.

Lemma daily_returns_inl (st : Statistics) (distribution : string)
  (simulations : Z) (jump_params : option (gmap string float64))
  (s s' : RandomState) (e : Exception) :
  daily_returns st distribution simulations jump_params s = (inl e, s') ->
  e = ValueError \/ e = KeyError.
Proof.
  unfold daily_returns.
  destruct (String.eqb distribution "lognormal").
  { intros H. apply bind_inl in H as [H|(Zs & s1 & _ & H)];
      [|discriminate H]. apply random_normal_inl in H as [-> _]. auto. }
  destruct (String.eqb distribution "normal").
  { intros H. apply bind_inl in H as [H|(Zs & s1 & _ & H)];
      [|discriminate H]. apply random_normal_inl in H as [-> _]. auto. }
  destruct (String.eqb distribution "jump_diffusion" && truthy jump_params);
    [|discriminate].
  intros H.
  apply bind_inl in H as [H|(m & s1 & _ & H)];
    [apply getitem_inl in H; auto|].
  apply bind_inl in H as [H|(sd & s2 & _ & H)];
    [apply getitem_inl in H; auto|].
  apply bind_inl in H as [H|(i & s3 & _ & H)];
    [apply getitem_inl in H; auto|].
  apply bind_inl in H as [H|(r & s4 & _ & H)]; [|discriminate H].
  apply generate_jump_diffusion_returns_inl in H as [->|[_ Hd]]; [auto|].
  discriminate Hd.
Qed.

Lemma clip_nan_or_within (x : float64) :
  nan_or_within a_min a_max (clip x (Fin a_min) (Fin a_max)).
Proof.
  destruct x as [r| | |].
  - right. apply clip_within. now exists r.
  - right. exists a_max. split; [reflexivity|]. unfold a_min, a_max. lra.
  - right. exists a_min. unfold clip, maximum, minimum, a_min, a_max.
    simpl. destruct (Rlt_dec 3000 0.01); [lra|].
    split; [reflexivity|lra].
  - now left.
Qed.

Lemma generate_simulations_inr (st : Statistics) (distribution : string)
  (simulations : Z) (jump_params : option (gmap string float64))
  (s s' : RandomState) (M : matrix float64) :
  generate_simulations st distribution simulations jump_params s
  = (inr M, s') ->
  exists M0 s0,
    daily_returns st distribution simulations jump_params (init_by_seed 42)
    = (inr (Some M0), s0)
    /\ M = mmap (fun x => clip x (Fin a_min) (Fin a_max))
             (mmap (fmul (initial_price st)) (cumprod M0)).
Proof.
  unfold generate_simulations. intros H.
  apply bind_inr in H as (u & s1 & Hseed & H). injection Hseed as _ <-.
  apply bind_inr in H as ([M0|] & s2 & Hd & H); [|discriminate H].
  injection H as <- _. eauto.
Qed.

(** X1: whatever the inputs, a matrix that [generate_simulations] returns
    has 252 rows and [simulations] columns, and each entry is either NaN or
    a number in [0.01, 3000]. *)
Theorem generate_simulations_always_clipped (st : Statistics)
  (distribution : string) (simulations : Z)
  (jump_params : option (gmap string float64)) (s : RandomState)
  (M : matrix float64) :
  fst (generate_simulations st distribution simulations jump_params s)
  = inr M ->
  shape 252 (Z.to_nat simulations) M
  /\ entries (nan_or_within 0.01 3000) M.
Proof.
  destruct (generate_simulations st distribution simulations jump_params s)
    as [r s'] eqn:E. simpl. intros ->.
  apply generate_simulations_inr in E as (M0 & s0 & Hd & ->).
  apply daily_returns_inr in Hd as [Hshape _]. split.
  - now apply shape_mmap, shape_mmap, shape_cumprod.
  - apply (entries_mmap _ (fun _ => True)); [|apply entries_True].
    intros x _. apply clip_nan_or_within.
Qed.

(** X2: the call ends in [UnboundLocalError] exactly when no branch of the
    model chain is taken: the tag is neither "lognormal" nor "normal", and
    it is not "jump_diffusion" with truthy jump parameters. *)
Theorem generate_simulations_unbound_iff (st : Statistics)
  (distribution : string) (simulations : Z)
  (jump_params : option (gmap string float64)) (s : RandomState) :
  fst (generate_simulations st distribution simulations jump_params s)
  = inl UnboundLocalError
  <-> (distribution <> "lognormal" /\ distribution <> "normal"
       /\ ~ (distribution = "jump_diffusion" /\ truthy jump_params = true)).
Proof.
  split.
  - destruct (generate_simulations st distribution simulations jump_params s)
      as [r s'] eqn:E. simpl. intros ->. unfold generate_simulations in E.
    apply bind_inl in E as [E|(u & s1 & Hseed & E)]; [discriminate E|].
    injection Hseed as _ <-.
    apply bind_inl in E as [E|(bound & s2 & Hd & E)].
    + apply daily_returns_inl in E as [E|E]; discriminate E.
    + destruct bound as [M0|]; [discriminate E|].
      now apply daily_returns_inr in Hd.
  - intros (Hl & Hn & Hj).
    assert (Hd : daily_returns st distribution simulations jump_params
                   (init_by_seed 42) = (inr None, init_by_seed 42)).
    { unfold daily_returns.
      destruct (String.eqb_spec distribution "lognormal"); [contradiction|].
      destruct (String.eqb_spec distribution "normal"); [contradiction|].
      destruct (String.eqb_spec distribution "jump_diffusion");
        [|reflexivity].
      destruct (truthy jump_params); [|reflexivity].
      exfalso. apply Hj. now split. }
    unfold generate_simulations.
    rewrite (bind_ok _ _ s (init_by_seed 42) tt) by reflexivity.
    now rewrite (bind_ok _ _ _ _ _ Hd).
Qed.

Lemma truthy_true_inv (jump_params : option (gmap string float64)) :
  truthy jump_params = true ->
  exists dct, jump_params = Some dct /\ dct <> ∅.
Proof.
  destruct jump_params as [dct|]; [|discriminate]. simpl. intros H.
  exists dct. split; [reflexivity|].
  apply negb_true_iff, bool_decide_eq_false in H. exact H.
Qed.

Lemma truthy_nonempty (dct : gmap string float64) :
  dct <> ∅ -> truthy (Some dct) = true.
Proof.
  intros H. simpl. now rewrite bool_decide_eq_false_2.
Qed.

Lemma getitem_Some_inl (dct : gmap string float64) (key : string)
  (s s' : RandomState) (e : Exception) :
  getitem (Some dct) key s = (inl e, s') -> dct !! key = None.
Proof.
  unfold getitem. destruct (dct !! key); [discriminate|reflexivity].
Qed.

(** X3: the call ends in [KeyError] exactly when the tag is
    "jump_diffusion" and the jump parameters are a non-empty dict that lacks
    one of the three keys read on lines 44-46. *)
Theorem generate_simulations_key_error_iff (st : Statistics)
  (distribution : string) (simulations : Z)
  (jump_params : option (gmap string float64)) (s : RandomState) :
  fst (generate_simulations st distribution simulations jump_params s)
  = inl KeyError
  <-> (distribution = "jump_diffusion"
       /\ exists dct, jump_params = Some dct /\ dct <> ∅
                      /\ ~ has_jump_keys dct).
Proof.
  split.
  - destruct (generate_simulations st distribution simulations jump_params s)
      as [r s'] eqn:E. simpl. intros ->. unfold generate_simulations in E.
    apply bind_inl in E as [E|(u & s1 & Hseed & E)]; [discriminate E|].
    apply bind_inl in E as [E|(bound & s2 & Hd & E)];
      [|destruct bound; discriminate E].
    unfold daily_returns in E.
    destruct (String.eqb distribution "lognormal").
    { apply bind_inl in E as [E|(Zs & s3 & _ & E)]; [|discriminate E].
      apply random_normal_inl in E as [E _]. discriminate E. }
    destruct (String.eqb distribution "normal").
    { apply bind_inl in E as [E|(Zs & s3 & _ & E)]; [|discriminate E].
      apply random_normal_inl in E as [E _]. discriminate E. }
    destruct (String.eqb_spec distribution "jump_diffusion") as [->|_];
      [|discriminate E].
    destruct (truthy jump_params) eqn:Ht; [|discriminate E].
    apply truthy_true_inv in Ht as (dct & -> & Hne).
    split; [reflexivity|]. exists dct. repeat split; try assumption.
    intros (Hm & Hsd & Hi). simpl in E.
    apply bind_inl in E as [E|(m & s3 & _ & E)].
    { apply getitem_Some_inl in E. rewrite E in Hm.
      now apply is_Some_None in Hm. }
    apply bind_inl in E as [E|(sd & s4 & _ & E)].
    { apply getitem_Some_inl in E. rewrite E in Hsd.
      now apply is_Some_None in Hsd. }
    apply bind_inl in E as [E|(i & s5 & _ & E)].
    { apply getitem_Some_inl in E. rewrite E in Hi.
      now apply is_Some_None in Hi. }
    apply bind_inl in E as [E|(r & s6 & _ & E)]; [|discriminate E].
    apply generate_jump_diffusion_returns_inl in E as [E|[E _]];
      discriminate E.
  - intros (-> & dct & -> & Hne & Hkeys).
    unfold generate_simulations, daily_returns.
    simpl (String.eqb _ _). cbv iota.
    rewrite (truthy_nonempty dct Hne). change (true && true) with true.
    cbv iota. unfold getitem, bind, seed, ret, raise.
    destruct (dct !! "jump_size_mean") as [m|] eqn:Em; [|reflexivity].
    destruct (dct !! "jump_size_std") as [sd|] eqn:Esd; [|reflexivity].
    destruct (dct !! "jump_intensity") as [i|] eqn:Ei; [|reflexivity].
    exfalso. apply Hkeys. unfold has_jump_keys. rewrite Em, Esd, Ei. eauto.
Qed.

(** ** NaN statistics *)

Lemma fmul_nan_r (x : float64) : fmul x NaN = NaN.
Proof. now destruct x. Qed.

Lemma fadd_nan_r (x : float64) : fadd x NaN = NaN.
Proof. now destruct x. Qed.

Lemma cumprod_from_nan (acc : list float64) (rows : matrix float64) :
  entries (fun x => x = NaN) rows ->
  entries (fun x => x = NaN) (cumprod_from acc rows).
Proof.
  intros Hrows. revert acc.
  induction Hrows as [|r rows Hr Hrows IH]; intros acc; simpl; constructor.
  - apply (Forall_zip_with fmul (fun _ => True) (fun x => x = NaN));
      [intros a b _ ->; apply fmul_nan_r| |assumption].
    apply Forall_forall. auto.
  - apply IH.
Qed.

Lemma cumprod_nan (m : matrix float64) :
  entries (fun x => x = NaN) m -> entries (fun x => x = NaN) (cumprod m).
Proof.
  intros Hm. destruct m as [|row rest]; [constructor|].
  inversion Hm; subst. constructor; [assumption|].
  now apply cumprod_from_nan.
Qed.

(** Lines 53-55 on daily returns that are all NaN. *)
Lemma generate_simulations_nan (st : Statistics) (distribution : string)
  (simulations : Z) (jump_params : option (gmap string float64))
  (s s' : RandomState) (M : matrix float64) (rows cols : nat) :
  daily_returns st distribution simulations jump_params (init_by_seed 42)
  = (inr (Some M), s') ->
  shape rows cols M -> entries (fun x => x = NaN) M ->
  exists M',
    generate_simulations st distribution simulations jump_params s
    = (inr M', s')
    /\ shape rows cols M' /\ entries (fun x => x = NaN) M'.
Proof.
  intros HM Hshape Hnan. unfold generate_simulations.
  rewrite (bind_ok _ _ s (init_by_seed 42) tt) by reflexivity.
  rewrite (bind_ok _ _ _ _ _ HM). unfold ret. eexists.
  split; [reflexivity|]. split.
  - now apply shape_mmap, shape_mmap, shape_cumprod.
  - apply (entries_mmap _ (fun x => x = NaN)); [now intros x ->|].
    apply (entries_mmap _ (fun x => x = NaN));
      [intros x ->; apply fmul_nan_r|].
    now apply cumprod_nan.
Qed.

Lemma daily_returns_nan_volatility (st : Statistics) (distribution : string)
  (simulations : Z) (jump_params : option (gmap string float64)) :
  volatility st = NaN ->
  distribution = "lognormal" \/ distribution = "normal" ->
  (0 <= simulations)%Z ->
  exists M s',
    daily_returns st distribution simulations jump_params (init_by_seed 42)
    = (inr (Some M), s')
    /\ shape 252 (Z.to_nat simulations) M
    /\ entries (fun x => x = NaN) M.
Proof.
  intros Hv Hd Hs. unfold daily_returns. rewrite Hv.
  destruct Hd as [-> | ->]; simpl (String.eqb _ _); cbv iota;
    (erewrite bind_ok; [|now apply normal_shocks]); unfold ret;
    do 2 eexists; (split; [reflexivity|]); split;
    try (apply shape_mmap, shape_mmap, drawn_shape);
    rewrite mmap_mmap;
    (apply (entries_mmap _ (fun _ => True)); [|apply entries_True]);
    intros z _; simpl; now destruct (drift st).
Qed.

(** X4: a history of one or two prices leaves the volatility NaN, and the
    lognormal and normal models then return a full-size matrix in which
    every price is NaN: the clip does not repair it. *)
Theorem short_history_simulates_nan (prices : list R) (lookback_days : Z)
  (distribution : string) (simulations : Z)
  (jump_params : option (gmap string float64)) (s : RandomState) :
  (1 <= length prices <= 2)%nat ->
  Forall (fun p => p <> 0) prices ->
  distribution = "lognormal" \/ distribution = "normal" ->
  (0 <= simulations)%Z ->
  exists fig,
    fst (monte_carlo_simulation prices lookback_days distribution
           simulations jump_params s) = inr fig
    /\ shape 252 (Z.to_nat simulations) (price_simulations fig)
    /\ entries (fun x => x = NaN) (price_simulations fig).
Proof.
  intros Hlen Hnz Hd Hs. destruct prices as [|p rest]; [simpl in Hlen; lia|].
  unfold monte_carlo_simulation.
  erewrite bind_ok;
    [|unfold lift; rewrite (extract_data_returns p rest _ Hnz); reflexivity].
  set (st := {| initial_price := _ |}).
  assert (Hv : volatility st = NaN).
  { subst st. simpl volatility. rewrite pd_std_short; [reflexivity|].
    rewrite notna_Fin, length_map.
    destruct rest as [|q [|q' rest]]; simpl in *; lia. }
  destruct (daily_returns_nan_volatility st distribution simulations
              jump_params Hv Hd Hs) as (M & s' & HM & Hshape & Hnan).
  destruct (generate_simulations_nan st distribution simulations jump_params
              s s' M _ _ HM Hshape Hnan) as (M' & HM' & Hshape' & Hnan').
  rewrite (bind_ok _ _ _ _ _ HM'). unfold ret. simpl. eauto.
Qed.

(** ** Which arguments the samplers accept *)

Lemma random_normal_accepts (loc scale : float64) (rows cols : Z)
  (s : RandomState) :
  accepted_scale scale -> (0 <= rows)%Z -> (0 <= cols)%Z ->
  random_normal loc scale rows cols s
  = (inr (mmap (fun z => fadd loc (fmul scale (Fin z)))
            (drawn legacy_gauss rows cols s)),
     after legacy_gauss rows cols s).
Proof.
  intros Hsc Hr Hc. unfold random_normal. rewrite Hsc.
  rewrite random_array_ok by assumption. unfold drawn, after, normal_sample.
  now rewrite (draw_rows_map (fun z => fadd loc (fmul scale (Fin z)))).
Qed.

Lemma random_normal_accepted (loc scale : float64) (rows cols : Z)
  (s s' : RandomState) (M : matrix float64) :
  random_normal loc scale rows cols s = (inr M, s') -> accepted_scale scale.
Proof.
  unfold random_normal, accepted_scale.
  destruct (fgt (Fin 0) scale); [discriminate|reflexivity].
Qed.

Lemma random_poisson_accepts (lam : float64) (rows cols : Z)
  (s : RandomState) :
  accepted_rate lam -> (0 <= rows)%Z -> (0 <= cols)%Z ->
  random_poisson lam rows cols s
  = (inr (drawn (legacy_poisson lam) rows cols s),
     after (legacy_poisson lam) rows cols s).
Proof.
  intros Hlam Hr Hc. unfold random_poisson. rewrite Hlam.
  now apply random_array_ok.
Qed.

Lemma random_poisson_accepted (lam : float64) (rows cols : Z)
  (s s' : RandomState) (M : matrix Z) :
  random_poisson lam rows cols s = (inr M, s') -> accepted_rate lam.
Proof.
  unfold random_poisson, accepted_rate.
  destruct (fgt (Fin 0) lam || isnan lam || fgt lam (Fin POISSON_LAM_MAX));
    [discriminate|reflexivity].
Qed.

Lemma accepted_scale_sqrt (x : float64) : accepted_scale (fsqrt x).
Proof.
  unfold accepted_scale. destruct x as [r| | |]; try reflexivity.
  simpl. destruct (Rlt_dec r 0); [reflexivity|]. simpl.
  destruct (Rlt_dec (sqrt r) 0) as [H|_]; [|reflexivity].
  pose proof (sqrt_pos r). lra.
Qed.

Lemma accepted_rate_unit (q dt : R) :
  0 <= q <= 1 -> 0 <= dt <= 1 -> accepted_rate (fmul (Fin q) (Fin dt)).
Proof.
  intros Hq Hdt. unfold accepted_rate. simpl.
  pose proof POISSON_LAM_MAX_ge_1.
  destruct (Rlt_dec (q * dt) 0) as [H'|_]; [nra|].
  destruct (Rlt_dec POISSON_LAM_MAX (q * dt)) as [H'|_]; [nra|reflexivity].
Qed.

Lemma generate_jump_diffusion_returns_accepts
  (jump_size_mean jump_size_std jump_intensity drift volatility : float64)
  (days simulations : Z) (s : RandomState) :
  (0 < days)%Z -> (0 <= simulations)%Z ->
  accepted_scale jump_size_std ->
  accepted_rate (fmul jump_intensity (Fin (1 / IZR days))) ->
  exists M s',
    generate_jump_diffusion_returns jump_size_mean jump_size_std
      jump_intensity drift volatility days simulations s = (inr M, s').
Proof.
  intros Hd Hs Hsc Hlam. unfold generate_jump_diffusion_returns.
  rewrite (bind_ok _ _ s (init_by_seed 42) tt) by reflexivity.
  destruct (Z.eqb_spec days 0) as [?|_]; [lia|].
  rewrite (bind_ok _ _ _ (init_by_seed 42) (Fin (1 / IZR days)))
    by reflexivity.
  erewrite bind_ok; [|apply random_poisson_accepts; [assumption|lia|lia]].
  erewrite bind_ok; [|apply random_normal_accepts; [assumption|lia|lia]].
  erewrite bind_ok;
    [|apply random_normal_accepts; [apply accepted_scale_sqrt|lia|lia]].
  unfold ret. eauto.
Qed.

(** ** Calibrated parameters *)

Lemma accepted_scale_np_std (a : list float64) : accepted_scale (np_std a).
Proof. unfold np_std. apply accepted_scale_sqrt. Qed.

Lemma intensity_bounds {A : Type} (f : A -> bool) (l : list A) :
  l <> [] ->
  0 <= INR (length (List.filter f l)) / INR (length l) <= 1.
Proof.
  intros Hl. pose proof (INR_length_pos l Hl) as Hm.
  pose proof (List.filter_length_le f l) as Hle. apply le_INR in Hle.
  pose proof (pos_INR (length (List.filter f l))) as Hn.
  split.
  - apply Rmult_le_pos; [assumption|]. left. now apply Rinv_0_lt_compat.
  - apply Rmult_le_reg_r with (INR (length l)); [assumption|].
    unfold Rdiv. rewrite Rmult_assoc, Rinv_l by lra. lra.
Qed.

Lemma calibrate_nonempty (returns : list float64) :
  returns <> [] ->
  exists mean std q,
    calibrate_jump_diffusion_params returns
    = inr (jump_dict mean std (Fin q))
    /\ 0 <= q <= 1
    /\ (q = 0 <-> positive returns = [])
    /\ accepted_scale std.
Proof.
  intros Hne. unfold calibrate_jump_diffusion_params.
  destruct returns as [|x rest] eqn:E; [congruence|]. rewrite <- E in *.
  assert (Hlen : length returns = S (length rest)) by now rewrite E.
  rewrite Hlen. cbv iota. rewrite <- Hlen.
  do 3 eexists. split; [reflexivity|]. split; [|split].
  - apply intensity_bounds. now rewrite E.
  - pose proof (INR_length_pos returns ltac:(now rewrite E)) as Hm.
    split.
    + intros Hq. apply length_zero_iff_nil. apply INR_eq. simpl INR.
      apply (Rmult_eq_reg_r (/ INR (length returns)));
        [|apply Rinv_neq_0_compat; lra].
      unfold Rdiv in Hq. rewrite Hq. lra.
    + intros ->. simpl. lra.
  - apply accepted_scale_np_std.
Qed.

(** X6: on a non-empty series, whatever floats it holds, the calibrated
    intensity is a number in [0, 1], zero exactly when no return is strictly
    positive, and the calibrated deviation is never negative. *)
Theorem calibrate_invariants (returns : list float64) :
  returns <> [] ->
  exists mean std q,
    calibrate_jump_diffusion_params returns
    = inr (jump_dict mean std (Fin q))
    /\ 0 <= q <= 1
    /\ (q = 0 <-> positive returns = [])
    /\ accepted_scale std.
Proof. apply calibrate_nonempty. Qed.

Lemma calibrate_invariants_witness :
  exists mean std q,
    calibrate_jump_diffusion_params [NaN; PInf; Fin (-1)]
    = inr (jump_dict mean std (Fin q)) /\ 0 <= q <= 1.
Proof.
  destruct (calibrate_invariants [NaN; PInf; Fin (-1)])
    as (mean & std & q & H & Hq & _); [discriminate|].
  exists mean, std, q. now split.
Defined.

Lemma calibrate_inr (returns : list float64) (dct : gmap string float64) :
  calibrate_jump_diffusion_params returns = inr dct ->
  returns <> []
  /\ exists mean std q,
      dct = jump_dict mean std (Fin q) /\ 0 <= q <= 1
      /\ accepted_scale std.
Proof.
  intros H. assert (Hne : returns <> []).
  { intros ->. discriminate H. }
  split; [assumption|].
  destruct (calibrate_nonempty returns Hne)
    as (mean & std & q & E & Hq & _ & Hstd).
  rewrite E in H. injection H as <-. eauto 6.
Qed.

Lemma jump_dict_lookup (mean std intensity : float64) :
  jump_dict mean std intensity !! "jump_size_mean" = Some mean
  /\ jump_dict mean std intensity !! "jump_size_std" = Some std
  /\ jump_dict mean std intensity !! "jump_intensity" = Some intensity.
Proof. repeat split; reflexivity. Qed.

Lemma daily_returns_jump_dict (st : Statistics) (simulations : Z)
  (mean std intensity : float64) (s : RandomState) :
  daily_returns st "jump_diffusion" simulations
    (Some (jump_dict mean std intensity)) s
  = bind (generate_jump_diffusion_returns mean std intensity (drift st)
            (volatility st) days simulations)
      (fun r => ret (Some r)) s.
Proof.
  destruct (jump_dict_lookup mean std intensity) as (Hm & Hsd & Hi).
  unfold daily_returns. simpl (String.eqb _ _). cbv iota.
  rewrite (truthy_of_lookup _ _ _ Hm). change (true && true) with true.
  cbv iota. unfold getitem. rewrite Hm, Hsd, Hi. reflexivity.
Qed.

Lemma generate_simulations_calibrated (returns : list float64)
  (dct : gmap string float64) (st : Statistics) (simulations : Z)
  (s : RandomState) :
  calibrate_jump_diffusion_params returns = inr dct ->
  (0 <= simulations)%Z ->
  exists M s',
    generate_simulations st "jump_diffusion" simulations (Some dct) s
    = (inr M, s').
Proof.
  intros Hcal Hs.
  apply calibrate_inr in Hcal as (_ & mean & std & q & -> & Hq & Hstd).
  destruct (generate_jump_diffusion_returns_accepts mean std (Fin q)
              (drift st) (volatility st) days simulations (init_by_seed 42))
    as (M & s' & HM); try assumption.
  { unfold days. lia. }
  { apply accepted_rate_unit; [assumption|].
    pose proof (dt_bounds days ltac:(unfold days; lia)). lra. }
  unfold generate_simulations.
  rewrite (bind_ok _ _ s (init_by_seed 42) tt) by reflexivity.
  erewrite bind_ok;
    [|rewrite daily_returns_jump_dict; erewrite bind_ok by exact HM;
      reflexivity].
  unfold ret. eauto.
Qed.

(** X7: parameters that [calibrate_jump_diffusion_params] returns are never
    rejected by the simulation: with them, the jump-diffusion model returns
    a matrix for any statistics and any non-negative number of
    simulations. *)
Theorem calibrated_params_always_simulate (returns : list float64)
  (dct : gmap string float64) (st : Statistics) (simulations : Z)
  (s : RandomState) :
  calibrate_jump_diffusion_params returns = inr dct ->
  (0 <= simulations)%Z ->
  exists M,
    fst (generate_simulations st "jump_diffusion" simulations (Some dct) s)
    = inr M.
Proof.
  intros Hcal Hs.
  destruct (generate_simulations_calibrated returns dct st simulations s
              Hcal Hs) as (M & s' & ->).
  now exists M.
Qed.

(** ** The two Brownian models side by side *)

(** X8: on the same statistics and from the same generator state, the
    "lognormal" daily returns are the element-wise exponential of the
    "normal" ones: the two branches draw the same shocks, and "normal" uses
    the exponent itself as the growth factor. *)
Theorem lognormal_exp_of_normal (st : Statistics) (simulations : Z)
  (jump_params jump_params' : option (gmap string float64))
  (s : RandomState) :
  daily_returns st "lognormal" simulations jump_params s
  = bind (daily_returns st "normal" simulations jump_params')
      (fun bound => ret (option_map (mmap fexp) bound)) s.
Proof.
  unfold daily_returns. simpl (String.eqb _ _). cbv iota. unfold bind.
  destruct (random_normal (Fin 0) (Fin 1) days simulations s)
    as [[e|Zs] s1]; [reflexivity|].
  unfold ret. simpl. now rewrite mmap_mmap.
Qed.

(** ** A flat price history *)

Lemma simple_returns_from_flat (p : R) (k : nat) :
  p <> 0 -> simple_returns_from p (repeat p k) = repeat 0 k.
Proof.
  intros Hp. induction k as [|k IH]; simpl; [reflexivity|].
  rewrite IH. f_equal. now field.
Qed.

Lemma Rsum_map_zero (f : R -> R) (k : nat) :
  f 0 = 0 -> Rsum (map f (repeat 0 k)) = 0.
Proof.
  intros Hf. induction k as [|k IH]; [reflexivity|].
  change (Rsum (map f (repeat 0 (S k))))
    with (f 0 + Rsum (map f (repeat 0 k))).
  rewrite IH, Hf. lra.
Qed.

Lemma Rmean_zero (k : nat) : Rmean (repeat 0 k) = 0.
Proof.
  unfold Rmean. rewrite <- (map_id (repeat 0 k)).
  rewrite (Rsum_map_zero (fun x => x)) by reflexivity. unfold Rdiv. lra.
Qed.

Lemma sample_stddev_zero (k : nat) : sample_stddev (repeat 0 k) = 0.
Proof.
  unfold sample_stddev, sq_dev. rewrite Rmean_zero.
  rewrite Rsum_map_zero by lra. unfold Rdiv. rewrite Rmult_0_l.
  apply sqrt_0.
Qed.

Lemma last_repeat (p : R) (k : nat) : List.last (p :: repeat p k) 0 = p.
Proof.
  induction k as [|k IH]; [reflexivity|].
  change (List.last (p :: repeat p (S k)) 0)
    with (List.last (p :: repeat p k) 0). exact IH.
Qed.

Lemma extract_data_flat (p : R) (n : nat) (lookback_days : Z) :
  (3 <= n)%nat -> p <> 0 -> (0 <= lookback_days)%Z ->
  extract_data (repeat p n) lookback_days
  = inr {| initial_price := Fin p; drift := Fin 0; volatility := Fin 0 |}.
Proof.
  intros Hn Hp Hlb. destruct n as [|k]; [lia|].
  change (repeat p (S k)) with (p :: repeat p k).
  rewrite extract_data_returns.
  - rewrite last_repeat. simpl simple_returns.
    rewrite simple_returns_from_flat by assumption.
    rewrite pd_mean_Fin by (destruct k; [lia|discriminate]).
    rewrite pd_std_Fin by (rewrite repeat_length; lia).
    rewrite Rmean_zero, sample_stddev_zero.
    unfold of_int. rewrite fsqrt_Fin by now apply IZR_le.
    simpl. do 2 f_equal; f_equal; lra.
  - change (p :: repeat p k) with (repeat p (S k)).
    apply List.Forall_forall. intros x Hx. apply repeat_spec in Hx.
    now subst.
Qed.

Lemma cumprod_from_closed (P : float64 -> Prop) (acc : list float64)
  (rows : matrix float64) :
  (forall x y, P x -> P y -> P (fmul x y)) ->
  Forall P acc -> entries P rows -> entries P (cumprod_from acc rows).
Proof.
  intros HP Hacc Hrows. revert acc Hacc.
  induction Hrows as [|r rows Hr Hrows IH]; intros acc Hacc; simpl;
    constructor.
  - now apply (Forall_zip_with fmul P P P).
  - apply IH. now apply (Forall_zip_with fmul P P P).
Qed.

Lemma cumprod_closed (P : float64 -> Prop) (m : matrix float64) :
  (forall x y, P x -> P y -> P (fmul x y)) ->
  entries P m -> entries P (cumprod m).
Proof.
  intros HP Hm. destruct m as [|row rest]; [constructor|].
  inversion Hm; subst. constructor; [assumption|].
  now apply cumprod_from_closed.
Qed.

Lemma clip_in_range (r : R) :
  0.01 <= r <= 3000 -> clip (Fin r) (Fin a_min) (Fin a_max) = Fin r.
Proof.
  intros Hr. unfold clip, maximum, minimum, fgt, isnan, a_min, a_max.
  destruct (Rlt_dec r 0.01) as [H|_]; [lra|].
  destruct (Rlt_dec 3000 r) as [H|_]; [lra|reflexivity].
Qed.

Lemma clip_below (r : R) :
  r < 0.01 -> clip (Fin r) (Fin a_min) (Fin a_max) = Fin 0.01.
Proof.
  intros Hr. unfold clip, maximum, minimum, fgt, isnan, a_min, a_max.
  destruct (Rlt_dec r 0.01) as [_|H]; [|lra].
  destruct (Rlt_dec 3000 0.01) as [H|_]; [lra|reflexivity].
Qed.

(** Lines 53-55 on daily returns that all equal one idempotent factor. *)
Lemma generate_simulations_constant (p g : R) (st : Statistics)
  (distribution : string) (simulations : Z)
  (jump_params : option (gmap string float64)) (s s' : RandomState)
  (M : matrix float64) (rows cols : nat) :
  initial_price st = Fin p -> g * g = g ->
  daily_returns st distribution simulations jump_params (init_by_seed 42)
  = (inr (Some M), s') ->
  shape rows cols M -> entries (fun x => x = Fin g) M ->
  exists M',
    generate_simulations st distribution simulations jump_params s
    = (inr M', s')
    /\ shape rows cols M'
    /\ entries (fun x => x = clip (Fin (p * g)) (Fin a_min) (Fin a_max)) M'.
Proof.
  intros Hp Hg HM Hshape Hconst. unfold generate_simulations.
  rewrite (bind_ok _ _ s (init_by_seed 42) tt) by reflexivity.
  rewrite (bind_ok _ _ _ _ _ HM). unfold ret. eexists.
  split; [reflexivity|]. split.
  - now apply shape_mmap, shape_mmap, shape_cumprod.
  - rewrite mmap_mmap. apply (entries_mmap _ (fun x => x = Fin g)).
    + intros x ->. now rewrite Hp.
    + apply cumprod_closed; [|assumption].
      intros x y -> ->. simpl. now rewrite Hg.
Qed.

Lemma daily_returns_flat (p : R) (simulations : Z)
  (jump_params : option (gmap string float64)) :
  (0 <= simulations)%Z ->
  (exists M s',
      daily_returns {| initial_price := Fin p; drift := Fin 0;
                       volatility := Fin 0 |}
        "lognormal" simulations jump_params (init_by_seed 42)
      = (inr (Some M), s')
      /\ shape 252 (Z.to_nat simulations) M
      /\ entries (fun x => x = Fin 1) M)
  /\ (exists M s',
         daily_returns {| initial_price := Fin p; drift := Fin 0;
                          volatility := Fin 0 |}
           "normal" simulations jump_params (init_by_seed 42)
         = (inr (Some M), s')
         /\ shape 252 (Z.to_nat simulations) M
         /\ entries (fun x => x = Fin 0) M).
Proof.
  intros Hs. split; unfold daily_returns; simpl (String.eqb _ _); cbv iota;
    (erewrite bind_ok; [|now apply normal_shocks]); unfold ret;
    do 2 eexists; (split; [reflexivity|]); split;
    try (apply shape_mmap, shape_mmap, drawn_shape);
    rewrite mmap_mmap;
    (apply (entries_mmap _ (fun _ => True)); [|apply entries_True]);
    intros z _; cbn [drift volatility fadd fsub fmul fsquare fneg].
  - replace (0 + - (0.5 * (0 * 0)) + 0 * (0 + 1 * z)) with 0 by lra.
    rewrite fexp_in_range by (unfold exp_underflow, exp_overflow; lra).
    now rewrite exp_0.
  - f_equal. lra.
Qed.

(** X9: a flat history of at least three prices gives zero drift and zero
    volatility; the "lognormal" model then keeps every simulated price at
    the last price, while the "normal" model, whose growth factor is then 0,
    puts every simulated price on the floor of the clip, 0.01. *)
Theorem flat_history_paths (p : R) (n : nat) (lookback_days : Z)
  (simulations : Z) (jump_params : option (gmap string float64))
  (s : RandomState) :
  (3 <= n)%nat -> 0.01 <= p <= 3000 -> (0 <= lookback_days)%Z ->
  (0 <= simulations)%Z ->
  (exists fig,
      fst (monte_carlo_simulation (repeat p n) lookback_days "lognormal"
             simulations jump_params s) = inr fig
      /\ annotation fig
         = {| initial_price := Fin p; drift := Fin 0; volatility := Fin 0 |}
      /\ shape 252 (Z.to_nat simulations) (price_simulations fig)
      /\ entries (fun x => x = Fin p) (price_simulations fig))
  /\ (exists fig,
         fst (monte_carlo_simulation (repeat p n) lookback_days "normal"
                simulations jump_params s) = inr fig
         /\ shape 252 (Z.to_nat simulations) (price_simulations fig)
         /\ entries (fun x => x = Fin 0.01) (price_simulations fig)).
Proof.
  intros Hn Hp Hlb Hs.
  pose proof (extract_data_flat p n lookback_days Hn ltac:(lra) Hlb) as He.
  destruct (daily_returns_flat p simulations jump_params Hs)
    as [(M1 & s1 & HM1 & Hsh1 & Hc1) (M0 & s0 & HM0 & Hsh0 & Hc0)].
  split; unfold monte_carlo_simulation;
    (erewrite bind_ok; [|unfold lift; rewrite He; reflexivity]).
  - destruct (generate_simulations_constant p 1
                {| initial_price := Fin p; drift := Fin 0;
                   volatility := Fin 0 |} _ _ _ s s1 M1 _ _ eq_refl
                ltac:(lra) HM1 Hsh1 Hc1) as (M' & HM' & Hshape & Hconst).
    rewrite (bind_ok _ _ _ _ _ HM'). unfold ret. simpl. eexists.
    repeat split; try reflexivity; try apply Hshape.
    replace (p * 1) with p in Hconst by lra.
    now rewrite clip_in_range in Hconst.
  - destruct (generate_simulations_constant p 0
                {| initial_price := Fin p; drift := Fin 0;
                   volatility := Fin 0 |} _ _ _ s s0 M0 _ _ eq_refl
                ltac:(lra) HM0 Hsh0 Hc0) as (M' & HM' & Hshape & Hconst).
    rewrite (bind_ok _ _ _ _ _ HM'). unfold ret. simpl. eexists.
    repeat split; try reflexivity; try apply Hshape.
    now rewrite clip_below in Hconst by lra.
Qed.

End GeneratorResults.

(** ** Rescaled prices *)

Lemma simple_returns_from_scale (c prev : R) (prices : list R) :
  c <> 0 -> prev <> 0 -> Forall (fun p => p <> 0) prices ->
  simple_returns_from (c * prev) (map (Rmult c) prices)
  = simple_returns_from prev prices.
Proof.
  intros Hc Hprev Hall. revert prev Hprev.
  induction Hall as [|p prices Hp Hall IH]; intros prev Hprev; simpl;
    [reflexivity|].
  rewrite IH by assumption. f_equal. now field.
Qed.

Lemma last_map_cons (f : R -> R) (p : R) (l : list R) :
  List.last (map f (p :: l)) 0 = f (List.last (p :: l) 0).
Proof.
  revert p. induction l as [|q l IH]; intros p; [reflexivity|].
  change (List.last (map f (p :: q :: l)) 0)
    with (List.last (map f (q :: l)) 0).
  now rewrite IH.
Qed.

Lemma Forall_scale (c : R) (prices : list R) :
  c <> 0 -> Forall (fun p => p <> 0) prices ->
  Forall (fun p => p <> 0) (map (Rmult c) prices).
Proof.
  intros Hc Hall. apply Forall_map.
  eapply List.Forall_impl; [|exact Hall]. intros p Hp. simpl.
  now apply Rmult_integral_contrapositive.
Qed.

(** X10: the statistics do not depend on the unit of the prices:
    multiplying every price by the same non-zero factor leaves drift and
    volatility unchanged and multiplies the initial price by the factor. *)
Theorem extract_data_scale_invariant (c : R) (prices : list R)
  (lookback_days : Z) :
  c <> 0 -> prices <> [] -> Forall (fun p => p <> 0) prices ->
  exists st,
    extract_data prices lookback_days = inr st
    /\ extract_data (map (Rmult c) prices) lookback_days
       = inr {| initial_price := fmul (Fin c) (initial_price st);
                drift := drift st;
                volatility := volatility st |}.
Proof.
  intros Hc Hne Hall. destruct prices as [|p rest]; [congruence|].
  eexists. split; [now apply extract_data_returns|].
  change (map (Rmult c) (p :: rest)) with (c * p :: map (Rmult c) rest).
  rewrite extract_data_returns
    by (apply (Forall_scale c (p :: rest)); assumption).
  inversion Hall as [|? ? Hp Hrest]; subst.
  change (c * p :: map (Rmult c) rest) with (map (Rmult c) (p :: rest)).
  rewrite last_map_cons. simpl simple_returns.
  now rewrite simple_returns_from_scale.
Qed.

Lemma extract_data_scale_invariant_witness :
  exists st,
    extract_data [50; 51; 49] 21 = inr st
    /\ extract_data (map (Rmult 2) [50; 51; 49]) 21
       = inr {| initial_price := fmul (Fin 2) (initial_price st);
                drift := drift st;
                volatility := volatility st |}.
Proof.
  apply (extract_data_scale_invariant 2 [50; 51; 49] 21).
  - lra.
  - discriminate.
  - repeat constructor; lra.
Defined.

(** ** The returns column and the returns the callback calibrates on *)

(** X11: the [dropna] of line 23 has no effect on the frame: the assigned
    column is the [pct_change] column, leading NaN included, one row per
    price; for non-zero prices it is NaN followed by the simple returns. *)
Theorem daily_return_keeps_nan (p : R) (prices : list R) :
  Forall (fun p => p <> 0) (p :: prices) ->
  daily_return (map Fin (p :: prices))
  = NaN :: map Fin (simple_returns (p :: prices))
  /\ (forall close, daily_return close = pct_change close
                    /\ length (daily_return close) = length close).
Proof.
  intros Hall. split.
  - rewrite daily_return_pct_change. now apply pct_change_Fin.
  - intros close. rewrite daily_return_pct_change. split; [reflexivity|].
    apply length_pct_change.
Qed.

Lemma daily_return_keeps_nan_witness :
  daily_return (map Fin [100; 101; 99])
  = NaN :: map Fin (simple_returns [100; 101; 99]).
Proof.
  apply (daily_return_keeps_nan 100 [101; 99]). repeat constructor; lra.
Defined.

Lemma values_dropna_Fin (rs : list R) (k : nat) :
  values (dropna (combine (seq k (length (map Fin rs))) (map Fin rs)))
  = map Fin rs.
Proof.
  revert k. induction rs as [|r rs IH]; intros k; [reflexivity|].
  simpl. f_equal. apply (IH (S k)).
Qed.

Lemma callback_returns_Fin (p : R) (prices : list R) :
  Forall (fun p => p <> 0) (p :: prices) ->
  callback_returns (p :: prices) = map Fin (simple_returns (p :: prices)).
Proof.
  intros Hall. unfold callback_returns. rewrite (pct_change_Fin p prices Hall).
  unfold column.
  change (length (NaN :: map Fin (simple_returns (p :: prices))))
    with (S (length (map Fin (simple_returns (p :: prices))))).
  change (dropna (combine (seq 0 (S ?n)) (NaN :: ?l)))
    with (dropna (combine (seq 1 n) l)).
  apply values_dropna_Fin.
Qed.

(** ** The dashboard callback *)

Section DashAppProperties.

Context {G : NumpyRandom}.

Variable upper : string -> string.
Variable download : string -> string -> string -> list R.

Lemma update_plot_unfold (selected_stock custom_stock start_date end_date
  : string) (lookback_days : Z) (distribution : string) (simulations : Z)
  (s : RandomState) :
  update_plot upper download selected_stock custom_stock start_date end_date
    lookback_days distribution simulations s
  = let adj_close :=
      download (chosen_symbol upper selected_stock custom_stock) start_date
        end_date in
    bind
      (if String.eqb distribution "jump_diffusion" then
         bind (lift (calibrate_jump_diffusion_params
                       (callback_returns adj_close)))
           (fun jump_params => ret (Some jump_params))
       else ret None)
      (fun jump_params =>
         monte_carlo_simulation adj_close lookback_days distribution
           simulations jump_params) s.
Proof. reflexivity. Qed.

Lemma callback_returns_short (adj_close : list R) :
  (length adj_close < 2)%nat -> callback_returns adj_close = [].
Proof.
  intros Hlen. destruct adj_close as [|p [|q rest]]; simpl in Hlen;
    try lia; reflexivity.
Qed.

Lemma callback_returns_nonempty (adj_close : list R) :
  callback_returns adj_close <> [] -> adj_close <> [].
Proof. intros H ->. now apply H. Qed.

Lemma extract_data_nonempty (adj_close : list R) (lookback_days : Z) :
  adj_close <> [] ->
  exists st, extract_data adj_close lookback_days = inr st.
Proof.
  intros Hne. destruct adj_close as [|p rest]; [congruence|].
  unfold extract_data. destruct (rev_map_Fin_last p rest) as [tl ->]. eauto.
Qed.

(** X12: with too few prices the callback fails before any simulation and
    without touching the generator: on fewer than two prices the
    jump-diffusion choice raises [ZeroDivisionError] in the calibration; on
    no price at all every other choice raises [IndexError]. *)
Theorem update_plot_too_few_prices (selected_stock custom_stock start_date
  end_date : string) (lookback_days : Z) (distribution : string)
  (simulations : Z) (s : RandomState) :
  let adj_close :=
    download (chosen_symbol upper selected_stock custom_stock) start_date
      end_date in
  (distribution = "jump_diffusion" -> (length adj_close < 2)%nat ->
   update_plot upper download selected_stock custom_stock start_date end_date
     lookback_days distribution simulations s = (inl ZeroDivisionError, s))
  /\ (distribution <> "jump_diffusion" -> adj_close = [] ->
      update_plot upper download selected_stock custom_stock start_date
        end_date lookback_days distribution simulations s
      = (inl IndexError, s)).
Proof.
  intros adj_close. split; rewrite update_plot_unfold; fold adj_close;
    cbv zeta.
  - intros -> Hlen. simpl (String.eqb _ _). cbv iota.
    now rewrite (callback_returns_short adj_close Hlen).
  - intros Hd Hnil. apply String.eqb_neq in Hd. rewrite Hd, Hnil.
    reflexivity.
Qed.

(** X13: with the jump-diffusion choice and a non-negative number of
    simulations the callback ends in one of two ways, whatever was
    downloaded: the calibration raises [ZeroDivisionError] when no return is
    left after [dropna], and otherwise a figure comes back with 252 rows,
    [simulations] columns and every price NaN or within [0.01, 3000]; the
    fall-through of the model chain is never reached. *)
Theorem update_plot_jump_diffusion (selected_stock custom_stock start_date
  end_date : string) (lookback_days : Z) (simulations : Z)
  (s : RandomState) :
  (0 <= simulations)%Z ->
  let adj_close :=
    download (chosen_symbol upper selected_stock custom_stock) start_date
      end_date in
  (callback_returns adj_close = []
   /\ update_plot upper download selected_stock custom_stock start_date
        end_date lookback_days "jump_diffusion" simulations s
      = (inl ZeroDivisionError, s))
  \/ (callback_returns adj_close <> []
      /\ exists fig,
          fst (update_plot upper download selected_stock custom_stock
                 start_date end_date lookback_days "jump_diffusion"
                 simulations s) = inr fig
          /\ shape 252 (Z.to_nat simulations) (price_simulations fig)
          /\ entries (nan_or_within 0.01 3000) (price_simulations fig)).
Proof.
  intros Hs adj_close. rewrite update_plot_unfold. fold adj_close. cbv zeta.
  simpl (String.eqb _ _). cbv iota.
  destruct (callback_returns adj_close) as [|x rest] eqn:Hret.
  { left. split; reflexivity. }
  right. split; [discriminate|]. rewrite <- Hret.
  assert (Hne : callback_returns adj_close <> []) by now rewrite Hret.
  destruct (calibrate_nonempty _ Hne) as (mean & std & q & Hcal & _).
  destruct (extract_data_nonempty adj_close lookback_days
              (callback_returns_nonempty _ Hne)) as [st Hst].
  destruct (generate_simulations_calibrated _ _ st simulations s Hcal Hs)
    as (M & s' & HM).
  unfold bind at 1. unfold bind at 1. unfold lift at 1. rewrite Hcal.
  unfold ret at 1. unfold monte_carlo_simulation.
  erewrite bind_ok; [|unfold lift; rewrite Hst; reflexivity].
  rewrite (bind_ok _ _ _ _ _ HM). unfold ret. simpl. eexists.
  split; [reflexivity|]. simpl.
  apply generate_simulations_inr in HM as (M0 & s0 & Hd & ->).
  apply daily_returns_inr in Hd as [Hshape _]. split.
  - now apply shape_mmap, shape_mmap, shape_cumprod.
  - apply (entries_mmap _ (fun _ => True)); [|apply entries_True].
    intros y _. apply clip_nan_or_within.
Qed.

(** ** The callback, part by part *)

Lemma monte_carlo_simulation_of_parts (adj_close : list R)
  (lookback_days : Z) (distribution : string) (simulations : Z)
  (jump_params : option (gmap string float64)) (st : Statistics)
  (M : matrix float64) (s s' : RandomState) :
  extract_data adj_close lookback_days = inr st ->
  generate_simulations st distribution simulations jump_params s
  = (inr M, s') ->
  monte_carlo_simulation adj_close lookback_days distribution simulations
    jump_params s
  = (inr {| price_simulations := M; annotation := st |}, s').
Proof.
  intros Hst HM. unfold monte_carlo_simulation.
  erewrite bind_ok; [|unfold lift; rewrite Hst; reflexivity].
  now rewrite (bind_ok _ _ _ _ _ HM).
Qed.

Lemma update_plot_other (selected_stock custom_stock start_date end_date
  : string) (lookback_days : Z) (distribution : string) (simulations : Z)
  (s : RandomState) :
  distribution <> "jump_diffusion" ->
  update_plot upper download selected_stock custom_stock start_date end_date
    lookback_days distribution simulations s
  = monte_carlo_simulation
      (download (chosen_symbol upper selected_stock custom_stock) start_date
         end_date)
      lookback_days distribution simulations None s.
Proof.
  intros Hd. rewrite update_plot_unfold. cbv zeta.
  apply String.eqb_neq in Hd. now rewrite Hd.
Qed.

Lemma update_plot_calibrated (selected_stock custom_stock start_date end_date
  : string) (lookback_days : Z) (simulations : Z) (s : RandomState)
  (dct : gmap string float64) :
  calibrate_jump_diffusion_params
    (callback_returns
       (download (chosen_symbol upper selected_stock custom_stock) start_date
          end_date)) = inr dct ->
  update_plot upper download selected_stock custom_stock start_date end_date
    lookback_days "jump_diffusion" simulations s
  = monte_carlo_simulation
      (download (chosen_symbol upper selected_stock custom_stock) start_date
         end_date)
      lookback_days "jump_diffusion" simulations (Some dct) s.
Proof.
  intros Hcal. rewrite update_plot_unfold. cbv zeta.
  simpl (String.eqb _ _). cbv iota.
  unfold bind at 1. unfold bind at 1. unfold lift at 1. now rewrite Hcal.
Qed.

Lemma extract_data_finite (prices : list R) (lookback_days : Z) :
  (3 <= length prices)%nat -> Forall (fun p => p <> 0) prices ->
  (0 <= lookback_days)%Z ->
  extract_data prices lookback_days
  = inr {| initial_price := Fin (List.last prices 0);
           drift := Fin (Rmean (simple_returns prices) * IZR lookback_days);
           volatility := Fin (sample_stddev (simple_returns prices)
                              * sqrt (IZR lookback_days)) |}.
Proof.
  intros Hlen Hnz Hlb.
  destruct prices as [|p [|q [|q' rest]]]; simpl in Hlen; try lia.
  rewrite extract_data_returns by assumption.
  rewrite pd_mean_Fin by discriminate.
  rewrite pd_std_Fin
    by (simpl; rewrite length_simple_returns_from; simpl; lia).
  unfold of_int. rewrite fsqrt_Fin by now apply IZR_le. reflexivity.
Qed.

Lemma calibrate_Fin (rs : list R) :
  Rpositive rs <> [] ->
  calibrate_jump_diffusion_params (map Fin rs)
  = inr (jump_dict (Fin (Rmean (Rpositive rs))) (Fin (stddev (Rpositive rs)))
           (Fin (INR (length (Rpositive rs)) / INR (length rs)))).
Proof.
  intros Hne. unfold calibrate_jump_diffusion_params.
  rewrite positive_Fin, (np_mean_Fin _ Hne), (np_std_Fin _ Hne).
  rewrite !length_map.
  destruct rs as [|r rs]; [now destruct Hne|reflexivity].
Qed.

Lemma calibrate_Fin_valid (rs : list R) :
  Rpositive rs <> [] ->
  valid_jump_params
    (Some (jump_dict (Fin (Rmean (Rpositive rs)))
             (Fin (stddev (Rpositive rs)))
             (Fin (INR (length (Rpositive rs)) / INR (length rs))))).
Proof.
  intros Hne. eexists _, _, _, _. split; [reflexivity|].
  repeat split; try reflexivity.
  - apply sqrt_pos.
  - apply intensity_bounds. intros ->. now apply Hne.
  - apply intensity_bounds. intros ->. now apply Hne.
Qed.

(** ** The callback on a history without a rise *)

Lemma calibrate_no_positive (returns : list float64) :
  positive returns = [] -> returns <> [] ->
  calibrate_jump_diffusion_params returns = inr (jump_dict NaN NaN (Fin 0)).
Proof.
  intros Hpos Hne. unfold calibrate_jump_diffusion_params.
  rewrite Hpos, np_mean_nil, np_std_nil.
  destruct returns as [|x rest]; [congruence|].
  cbv beta iota. unfold jump_dict. do 5 f_equal.
  change (INR (length (@nil float64))) with 0. lra.
Qed.

Lemma generate_jump_diffusion_returns_nan_mean
  (jump_size_std jump_intensity drift volatility : float64)
  (days simulations : Z) (s : RandomState) :
  (0 < days)%Z -> (0 <= simulations)%Z ->
  accepted_scale jump_size_std ->
  accepted_rate (fmul jump_intensity (Fin (1 / IZR days))) ->
  exists M s',
    generate_jump_diffusion_returns NaN jump_size_std jump_intensity drift
      volatility days simulations s = (inr M, s')
    /\ shape (Z.to_nat days) (Z.to_nat simulations) M
    /\ entries (fun x => x = NaN) M.
Proof.
  intros Hd Hs Hsc Hlam.
  destruct (generate_jump_diffusion_returns_accepts NaN jump_size_std
              jump_intensity drift volatility days simulations s Hd Hs Hsc
              Hlam) as (M & s' & HM).
  exists M, s'. split; [exact HM|]. split.
  { now apply generate_jump_diffusion_returns_inr in HM. }
  unfold generate_jump_diffusion_returns in HM.
  apply bind_inr in HM as (u & s1 & _ & HM).
  apply bind_inr in HM as (dt & s2 & _ & HM).
  apply bind_inr in HM as (N & s3 & _ & HM).
  apply bind_inr in HM as (W & s4 & HW & HM).
  apply bind_inr in HM as (Zs & s5 & _ & HM).
  apply random_normal_inr in HW as (-> & _ & _ & _).
  injection HM as <- _.
  apply (entries_mmap _ (fun x => x = NaN)); [now intros x ->|].
  apply (entries_mmap _ (fun x => x = NaN)); [now intros x ->|].
  apply (entries_mzip fadd (fun _ => True) (fun x => x = NaN));
    [intros a b _ ->; apply fadd_nan_r|apply entries_True|].
  apply (entries_mzip fmul (fun x => x = NaN) (fun _ => True));
    [now intros a b -> _| |apply entries_True].
  apply (entries_mmap _ (fun _ => True)); [|apply entries_True].
  now intros z _.
Qed.

(** X15: on a history of at least two positive prices none of which rises
    above the one before, the jump-diffusion choice calibrates a NaN jump
    size, and the callback returns a figure of 252 x [simulations] prices
    all of which are NaN. *)
Theorem update_plot_without_rise (selected_stock custom_stock start_date
  end_date : string) (lookback_days : Z) (simulations : Z)
  (s : RandomState) (adj_close : list R) :
  download (chosen_symbol upper selected_stock custom_stock) start_date
    end_date = adj_close ->
  (2 <= length adj_close)%nat ->
  Forall (fun p => 0 < p) adj_close ->
  Rpositive (simple_returns adj_close) = [] ->
  (0 <= simulations)%Z ->
  exists fig,
    fst (update_plot upper download selected_stock custom_stock start_date
           end_date lookback_days "jump_diffusion" simulations s) = inr fig
    /\ shape 252 (Z.to_nat simulations) (price_simulations fig)
    /\ entries (fun x => x = NaN) (price_simulations fig).
Proof.
  intros Hdl Hlen Hpos Hflat Hs.
  pose proof (nonzero_of_positive _ Hpos) as Hnz.
  destruct adj_close as [|p [|q rest]]; simpl in Hlen; try lia.
  assert (Hret : callback_returns (p :: q :: rest)
                 = map Fin (simple_returns (p :: q :: rest)))
    by now apply callback_returns_Fin.
  assert (Hcal : calibrate_jump_diffusion_params
                   (callback_returns (p :: q :: rest))
                 = inr (jump_dict NaN NaN (Fin 0))).
  { rewrite Hret. apply calibrate_no_positive; [|discriminate].
    now rewrite positive_Fin, Hflat. }
  rewrite (update_plot_calibrated _ _ _ _ _ _ _ _
             ltac:(rewrite Hdl; exact Hcal)), Hdl.
  destruct (extract_data_nonempty (p :: q :: rest) lookback_days
              ltac:(discriminate)) as [st Hst].
  destruct (generate_jump_diffusion_returns_nan_mean NaN (Fin 0) (drift st)
              (volatility st) days simulations (init_by_seed 42))
    as (M & s' & HM & Hshape & Hnan); try assumption.
  { unfold days. lia. }
  { reflexivity. }
  { apply accepted_rate_unit; [lra|].
    pose proof (dt_bounds days ltac:(unfold days; lia)). lra. }
  assert (Hd : daily_returns st "jump_diffusion" simulations
                 (Some (jump_dict NaN NaN (Fin 0))) (init_by_seed 42)
               = (inr (Some M), s')).
  { rewrite daily_returns_jump_dict. now rewrite (bind_ok _ _ _ _ _ HM). }
  destruct (generate_simulations_nan st "jump_diffusion" simulations _ s s'
              M _ _ Hd Hshape Hnan) as (M' & HM' & Hshape' & Hnan').
  rewrite (monte_carlo_simulation_of_parts _ _ _ _ _ _ _ _ _ Hst HM').
  simpl. eauto.
Qed.

End DashAppProperties.

(** ** The number of simulations *)

Section Simulations.

Context {G : NumpyRandom}.

Lemma brownian_negative (st : Statistics) (distribution : string)
  (simulations : Z) (jump_params : option (gmap string float64))
  (s : RandomState) :
  distribution = "lognormal" \/ distribution = "normal" ->
  (simulations < 0)%Z ->
  generate_simulations st distribution simulations jump_params s
  = (inl ValueError, init_by_seed 42).
Proof.
  intros Hd Hneg. unfold generate_simulations.
  rewrite (bind_ok _ _ s (init_by_seed 42) tt) by reflexivity.
  apply bind_raise_first.
  unfold daily_returns.
  destruct Hd as [-> | ->]; simpl (String.eqb _ _); cbv iota;
    apply bind_raise_first; unfold random_normal; simpl (fgt _ _);
    destruct (Rlt_dec 1 0) as [H|_]; try lra;
    apply random_array_negative; now right.
Qed.

Lemma brownian_nonnegative (st : Statistics) (distribution : string)
  (simulations : Z) (jump_params : option (gmap string float64))
  (s : RandomState) :
  distribution = "lognormal" \/ distribution = "normal" ->
  (0 <= simulations)%Z ->
  exists M s',
    generate_simulations st distribution simulations jump_params s
    = (inr M, s').
Proof.
  intros Hd Hs. unfold generate_simulations.
  rewrite (bind_ok _ _ s (init_by_seed 42) tt) by reflexivity.
  unfold daily_returns.
  destruct Hd as [-> | ->]; simpl (String.eqb _ _); cbv iota;
    (erewrite bind_ok;
     [|erewrite bind_ok by (now apply normal_shocks); reflexivity]);
    unfold ret; eauto.
Qed.

(** X16: for the "lognormal" and "normal" models a negative [simulations]
    is a [ValueError], raised after the generator has been seeded and
    whatever the statistics are; a matrix comes back only if [simulations]
    is not negative. *)
Theorem brownian_models_reject_negative (st : Statistics)
  (distribution : string) (simulations : Z)
  (jump_params : option (gmap string float64)) (s : RandomState) :
  distribution = "lognormal" \/ distribution = "normal" ->
  ((simulations < 0)%Z ->
   generate_simulations st distribution simulations jump_params s
   = (inl ValueError, init_by_seed 42))
  /\ (forall M,
        fst (generate_simulations st distribution simulations jump_params s)
        = inr M -> (0 <= simulations)%Z).
Proof.
  intros Hd. split; [now apply brownian_negative|].
  intros M HM. destruct (Z.lt_ge_cases simulations 0) as [Hneg|Hge];
    [|assumption].
  rewrite (brownian_negative st _ _ jump_params s Hd Hneg) in HM.
  discriminate HM.
Qed.

End Simulations.

(** ** Requests the data model calls valid *)

Section ValidRequests.

Context {G : NumpyRandom}.

Lemma generate_simulations_returned (st : Statistics) (distribution : string)
  (simulations : Z) (jump_params : option (gmap string float64))
  (s s' : RandomState) (M : matrix float64) :
  generate_simulations st distribution simulations jump_params s
  = (inr M, s') ->
  shape 252 (Z.to_nat simulations) M
  /\ entries (nan_or_within 0.01 3000) M.
Proof.
  intros E. apply generate_simulations_inr in E as (M0 & s0 & Hd & ->).
  apply daily_returns_inr in Hd as [Hshape _]. split.
  - now apply shape_mmap, shape_mmap, shape_cumprod.
  - apply (entries_mmap _ (fun _ => True)); [|apply entries_True].
    intros x _. apply clip_nan_or_within.
Qed.

Lemma accepted_scale_nonnegative (sd : R) : 0 <= sd -> accepted_scale (Fin sd).
Proof.
  intros Hsd. unfold accepted_scale. simpl.
  destruct (Rlt_dec sd 0) as [H|_]; [lra|reflexivity].
Qed.

Lemma accepted_rate_days (i : R) (days : Z) :
  0 <= i <= 1 -> (0 < days)%Z ->
  accepted_rate (fmul (Fin i) (Fin (1 / IZR days))).
Proof.
  intros Hi Hd. apply accepted_rate_unit; [assumption|].
  pose proof (dt_bounds days Hd). lra.
Qed.

Lemma jump_diffusion_valid_returns (st : Statistics) (simulations : Z)
  (jump_params : option (gmap string float64)) (s : RandomState) :
  (0 <= simulations)%Z -> valid_jump_params jump_params ->
  exists M s',
    generate_simulations st "jump_diffusion" simulations jump_params s
    = (inr M, s').
Proof.
  intros Hs (dct & m & sd & i & -> & Hm & Hsd & Hi & Hsd0 & Hi01).
  destruct (generate_jump_diffusion_returns_accepts (Fin m) (Fin sd) (Fin i)
              (drift st) (volatility st) days simulations (init_by_seed 42))
    as (M & s' & HM); try assumption.
  { unfold days. lia. }
  { now apply accepted_scale_nonnegative. }
  { apply accepted_rate_days; [assumption|unfold days; lia]. }
  unfold generate_simulations.
  rewrite (bind_ok _ _ s (init_by_seed 42) tt) by reflexivity.
  erewrite bind_ok.
  2:{ unfold daily_returns. simpl (String.eqb _ _). cbv iota.
      rewrite (truthy_of_lookup dct _ _ Hm).
      change (true && true) with true. cbv iota.
      unfold getitem. rewrite Hm, Hsd, Hi.
      rewrite (bind_ok _ _ _ (init_by_seed 42) (Fin m)) by reflexivity.
      rewrite (bind_ok _ _ _ (init_by_seed 42) (Fin sd)) by reflexivity.
      rewrite (bind_ok _ _ _ (init_by_seed 42) (Fin i)) by reflexivity.
      rewrite (bind_ok _ _ _ _ _ HM). reflexivity. }
  unfold ret. eauto.
Qed.

Lemma valid_request_returns (st : Statistics) (distribution : string)
  (simulations : Z) (jump_params : option (gmap string float64))
  (s : RandomState) :
  recognized distribution ->
  (0 <= simulations)%Z ->
  (distribution = "jump_diffusion" -> valid_jump_params jump_params) ->
  exists M s',
    generate_simulations st distribution simulations jump_params s
    = (inr M, s')
    /\ shape 252 (Z.to_nat simulations) M
    /\ entries (nan_or_within 0.01 3000) M.
Proof.
  intros Hrec Hs Hjp.
  assert (H : exists M s',
             generate_simulations st distribution simulations jump_params s
             = (inr M, s')).
  { destruct Hrec as [Hd|[Hd|Hd]].
    - apply brownian_nonnegative; auto.
    - apply brownian_nonnegative; auto.
    - subst distribution. apply jump_diffusion_valid_returns; auto. }
  destruct H as (M & s' & HM). exists M, s'. split; [exact HM|].
  now apply generate_simulations_returned in HM.
Qed.

(** C1, as amended: on a request with a recognised model, a non-negative
    number of simulations and, for jump diffusion, valid jump parameters,
    the call returns a matrix of [days] = 252 rows (the horizon is not an
    input) and one column per simulation, and every entry is either NaN or
    a number in [0.01, 3000]. *)
Theorem generate_simulations_shape_and_clip (st : Statistics)
  (distribution : string) (simulations : Z)
  (jump_params : option (gmap string float64)) (s : RandomState) :
  recognized distribution ->
  (0 <= simulations)%Z ->
  (distribution = "jump_diffusion" -> valid_jump_params jump_params) ->
  exists M,
    fst (generate_simulations st distribution simulations jump_params s)
    = inr M
    /\ shape 252 (Z.to_nat simulations) M
    /\ entries (nan_or_within 0.01 3000) M.
Proof.
  intros Hrec Hs Hjp.
  destruct (valid_request_returns st distribution simulations jump_params s
              Hrec Hs Hjp) as (M & s' & HM & Hshape & Hin).
  exists M. rewrite HM. auto.
Qed.

(** ** The growth factors of the jump-diffusion model *)

(** The growth factor lines 98-103 compute from one triple of draws. *)
Lemma growth_computed (m sd d v dt w z : R) (n : Z) :
  fadd (Fin 1)
    (fsub (fexp (fadd (fadd (fmul (fsub (Fin d)
                                     (fmul (Fin 0.5) (fsquare (Fin v))))
                               (Fin dt))
                         (fmul (Fin v) (Fin (0 + sqrt dt * z))))
                   (fmul (Fin (m + sd * w)) (of_int n))))
       (Fin 1))
  = growth_of (Fin (growth_exponent d v dt z (m + sd * w) n)).
Proof.
  unfold growth_of. do 3 f_equal.
  cbn [fadd fsub fmul fsquare fneg of_int]. f_equal.
  unfold growth_exponent. ring.
Qed.

Lemma generate_jump_diffusion_returns_formula (m sd i d v : R)
  (days simulations : Z) (s : RandomState) :
  0 <= sd -> 0 <= i <= 1 -> (0 < days)%Z -> (0 <= simulations)%Z ->
  exists s',
    generate_jump_diffusion_returns (Fin m) (Fin sd) (Fin i) (Fin d) (Fin v)
      days simulations s
    = (inr (mzip3
              (fun n w z =>
                 growth_of
                   (Fin (growth_exponent d v (1 / IZR days) z (m + sd * w)
                           n)))
              (jump_counts (Fin (i * (1 / IZR days))) days simulations)
              (jump_shocks (Fin (i * (1 / IZR days))) days simulations)
              (diffusion_shocks (Fin (i * (1 / IZR days))) days simulations)),
       s').
Proof.
  intros Hsd Hi Hdays Hsims. pose proof (dt_bounds days Hdays) as Hdt.
  set (dt := 1 / IZR days) in *.
  unfold generate_jump_diffusion_returns.
  rewrite (bind_ok _ _ s (init_by_seed 42) tt) by reflexivity.
  destruct (Z.eqb_spec days 0) as [?|_]; [lia|].
  rewrite (bind_ok _ _ _ (init_by_seed 42) (Fin dt)) by reflexivity.
  change (fmul (Fin i) (Fin dt)) with (Fin (i * dt)).
  erewrite bind_ok; [|apply random_poisson_ok; [nra|lia|lia]].
  erewrite bind_ok; [|apply random_normal_ok; [lra|lia|lia]].
  rewrite fsqrt_Fin by lra.
  erewrite bind_ok;
    [|apply random_normal_ok; [apply sqrt_pos|lia|lia]].
  eexists. unfold ret. f_equal. f_equal.
  rewrite !mmap_mmap.
  rewrite (mzip_mmap fmul (fun w => Fin (m + sd * w)) of_int).
  apply matrix_fuse.
  intros n w z. apply growth_computed.
Qed.

Lemma generate_jump_diffusion_returns_never_negative
  (jump_size_mean jump_size_std jump_intensity drift volatility : float64)
  (days simulations : Z) (s s' : RandomState) (M : matrix float64) :
  generate_jump_diffusion_returns jump_size_mean jump_size_std jump_intensity
    drift volatility days simulations s = (inr M, s') ->
  entries never_negative M.
Proof.
  unfold generate_jump_diffusion_returns. intros H.
  apply bind_inr in H as (u & s1 & _ & H).
  apply bind_inr in H as (dt & s2 & _ & H).
  apply bind_inr in H as (N & s3 & _ & H).
  apply bind_inr in H as (W & s4 & _ & H).
  apply bind_inr in H as (Zs & s5 & _ & H).
  injection H as <- _. rewrite mmap_mmap.
  apply (entries_mmap _ (fun _ => True)); [|apply entries_True].
  intros x _. apply (growth_of_never_negative x).
Qed.

(** C9, as amended: for finite parameters the samplers accept, each growth
    factor of the jump-diffusion branch is [1 + (np.exp(x) - 1)] with
    [x = driftTerm + diffusionTerm + jumpTerm] on its own draws and
    [dt = 1 / days]; and for every parameter setting, NaN and infinities
    included, a factor that is returned is never negative: it is NaN, plus
    infinity, or a number that is at least 0. *)
Theorem jump_diffusion_growth_never_negative (m sd i d v : R)
  (days simulations : Z) (s : RandomState) :
  0 <= sd -> 0 <= i <= 1 -> (0 < days)%Z -> (0 <= simulations)%Z ->
  let dt := 1 / IZR days in
  let lam := Fin (i * dt) in
  let factors :=
    mzip3 (fun n w z =>
             growth_of (Fin (growth_exponent d v dt z (m + sd * w) n)))
      (jump_counts lam days simulations) (jump_shocks lam days simulations)
      (diffusion_shocks lam days simulations) in
  fst (generate_jump_diffusion_returns (Fin m) (Fin sd) (Fin i) (Fin d)
         (Fin v) days simulations s) = inr factors
  /\ shape (Z.to_nat days) (Z.to_nat simulations) factors
  /\ entries never_negative factors
  /\ (forall (m' sd' i' d' v' : float64) (s0 : RandomState) M,
        fst (generate_jump_diffusion_returns m' sd' i' d' v' days
               simulations s0) = inr M ->
        entries never_negative M).
Proof.
  intros Hsd Hi Hdays Hsims dt lam factors.
  destruct (generate_jump_diffusion_returns_formula m sd i d v days
              simulations s Hsd Hi Hdays Hsims) as [s' ->].
  split; [reflexivity|]. split; [|split].
  - apply shape_mzip3; apply drawn_shape.
  - apply entries_mzip3. intros n w z. apply growth_of_never_negative.
  - intros m' sd' i' d' v' s0 M HM.
    destruct (generate_jump_diffusion_returns m' sd' i' d' v' days
                simulations s0) as [r s1] eqn:E. simpl in HM. subst r.
    now apply generate_jump_diffusion_returns_never_negative in E.
Qed.

(** X5: [generate_jump_diffusion_returns] returns a matrix only if [days]
    is positive, [simulations] is not negative, the jump-size deviation is
    not below zero and the Poisson rate [jump_intensity / days] is neither
    negative, nor NaN, nor above NumPy's maximum; and [days = 0] is a
    [ZeroDivisionError], raised after the generator has been seeded. *)
Theorem generate_jump_diffusion_returns_only_if
  (jump_size_mean jump_size_std jump_intensity drift volatility : float64)
  (days simulations : Z) (s : RandomState) :
  (forall M,
      fst (generate_jump_diffusion_returns jump_size_mean jump_size_std
             jump_intensity drift volatility days simulations s) = inr M ->
      (0 < days)%Z /\ (0 <= simulations)%Z
      /\ accepted_scale jump_size_std
      /\ accepted_rate (fmul jump_intensity (Fin (1 / IZR days)))
      /\ shape (Z.to_nat days) (Z.to_nat simulations) M)
  /\ (days = 0%Z ->
      generate_jump_diffusion_returns jump_size_mean jump_size_std
        jump_intensity drift volatility days simulations s
      = (inl ZeroDivisionError, init_by_seed 42)).
Proof.
  split.
  - intros M HM.
    destruct (generate_jump_diffusion_returns jump_size_mean jump_size_std
                jump_intensity drift volatility days simulations s)
      as [r s'] eqn:E. simpl in HM. subst r.
    pose proof (generate_jump_diffusion_returns_inr _ _ _ _ _ _ _ _ _ _ E)
      as Hshape.
    unfold generate_jump_diffusion_returns in E.
    apply bind_inr in E as (u & s1 & _ & E).
    apply bind_inr in E as (dt & s2 & Hdt & E).
    destruct (Z.eqb_spec days 0) as [?|Hnz]; [discriminate Hdt|].
    injection Hdt as <- _.
    apply bind_inr in E as (N & s3 & HN & E).
    apply bind_inr in E as (W & s4 & HW & E).
    pose proof (random_poisson_accepted _ _ _ _ _ _ HN) as Hlam.
    apply random_poisson_inr in HN as (_ & _ & Hr & Hc).
    apply random_normal_accepted in HW.
    repeat split; try assumption; try apply Hshape. lia.
  - intros ->. reflexivity.
Qed.

End ValidRequests.

(** ** The callback on a clean history *)

Section CleanHistory.

Context {G : NumpyRandom}.

Variable upper : string -> string.
Variable download : string -> string -> string -> list R.

(** X14: on a history of at least three positive prices, with a
    non-negative lookback and number of simulations, the callback returns a
    figure for each of the three models (for jump diffusion provided some
    return is strictly positive): the annotation holds the last price and
    the scaled sample statistics of the returns, and each of the
    252 x [simulations] prices is NaN or a number in [0.01, 3000]. *)
Theorem update_plot_on_clean_history (selected_stock custom_stock start_date
  end_date : string) (lookback_days : Z) (distribution : string)
  (simulations : Z) (s : RandomState) (adj_close : list R) :
  download (chosen_symbol upper selected_stock custom_stock) start_date
    end_date = adj_close ->
  (3 <= length adj_close)%nat ->
  Forall (fun p => 0 < p) adj_close ->
  (0 <= lookback_days)%Z ->
  (0 <= simulations)%Z ->
  recognized distribution ->
  (distribution = "jump_diffusion" ->
   Rpositive (simple_returns adj_close) <> []) ->
  exists fig,
    fst (update_plot upper download selected_stock custom_stock start_date
           end_date lookback_days distribution simulations s) = inr fig
    /\ annotation fig
       = {| initial_price := Fin (List.last adj_close 0);
            drift := Fin (Rmean (simple_returns adj_close)
                          * IZR lookback_days);
            volatility := Fin (sample_stddev (simple_returns adj_close)
                               * sqrt (IZR lookback_days)) |}
    /\ shape 252 (Z.to_nat simulations) (price_simulations fig)
    /\ entries (nan_or_within 0.01 3000) (price_simulations fig).
Proof.
  intros Hdl Hlen Hpos Hlb Hs Hrec Hup.
  pose proof (nonzero_of_positive _ Hpos) as Hnz.
  pose proof (extract_data_finite adj_close lookback_days Hlen Hnz Hlb)
    as Hst.
  set (st := {| initial_price := Fin (List.last adj_close 0) |}) in *.
  destruct (String.eqb_spec distribution "jump_diffusion") as [->|Hd].
  - specialize (Hup eq_refl).
    assert (Hret : callback_returns adj_close
                   = map Fin (simple_returns adj_close)).
    { destruct adj_close as [|p rest]; [simpl in Hlen; lia|].
      now apply callback_returns_Fin. }
    pose proof (calibrate_Fin _ Hup) as Hcal. rewrite <- Hret in Hcal.
    rewrite (update_plot_calibrated upper download _ _ _ _ _ _ _ _
               ltac:(rewrite Hdl; exact Hcal)), Hdl.
    destruct (valid_request_returns st "jump_diffusion" simulations _ s
                Hrec Hs (fun _ => calibrate_Fin_valid _ Hup))
      as (M & s' & HM & Hshape & Hin).
    rewrite (monte_carlo_simulation_of_parts _ _ _ _ _ _ _ _ _ Hst HM).
    simpl. eauto.
  - rewrite (update_plot_other upper download _ _ _ _ _ _ _ _ Hd), Hdl.
    destruct (valid_request_returns st distribution simulations None s
                Hrec Hs (fun E => False_ind _ (Hd E)))
      as (M & s' & HM & Hshape & Hin).
    rewrite (monte_carlo_simulation_of_parts _ _ _ _ _ _ _ _ _ Hst HM).
    simpl. eauto.
Qed.

End CleanHistory.

(** ** The further properties on a concrete generator *)

Lemma short_history_simulates_nan_witness :
  exists fig,
    fst (monte_carlo_simulation (G := counter_random) [100; 101] 21
           "lognormal" 3 None 0%Z) = inr fig
    /\ shape 252 3 (price_simulations fig)
    /\ entries (fun x => x = NaN) (price_simulations fig).
Proof.
  apply (short_history_simulates_nan (G := counter_random) [100; 101] 21
           "lognormal" 3 None 0%Z).
  - simpl. lia.
  - repeat constructor; lra.
  - left. reflexivity.
  - lia.
Defined.

Lemma calibrated_params_always_simulate_witness :
  exists M,
    fst (generate_simulations (G := counter_random) rounded_scenario
           "jump_diffusion" 2 (Some (jump_dict NaN NaN (Fin 0))) 0%Z)
    = inr M.
Proof.
  apply (calibrated_params_always_simulate (G := counter_random)
           [Fin (-0.01)] (jump_dict NaN NaN (Fin 0)) rounded_scenario 2 0%Z).
  - apply calibrate_no_positive; [|discriminate].
    unfold positive. simpl. now rdec.
  - lia.
Defined.

Lemma flat_history_paths_witness :
  exists fig,
    fst (monte_carlo_simulation (G := counter_random) (repeat 100 3) 21
           "normal" 2 None 0%Z) = inr fig
    /\ shape 252 2 (price_simulations fig)
    /\ entries (fun x => x = Fin 0.01) (price_simulations fig).
Proof.
  apply (flat_history_paths (G := counter_random) 100 3 21 2 None 0%Z);
    try lia; lra.
Defined.

Lemma update_plot_jump_diffusion_witness :
  exists fig,
    fst (update_plot (G := counter_random) (fun x => x)
           (fixed_download [100; 101; 99; 102]) "AAPL" "" "2023-01-01"
           "2023-12-31" 21 "jump_diffusion" 30 0%Z) = inr fig
    /\ shape 252 30 (price_simulations fig)
    /\ entries (nan_or_within 0.01 3000) (price_simulations fig).
Proof.
  destruct (update_plot_jump_diffusion (G := counter_random) (fun x => x)
              (fixed_download [100; 101; 99; 102]) "AAPL" "" "2023-01-01"
              "2023-12-31" 21 30 0%Z) as [[Hnil _]|[_ H]].
  - lia.
  - unfold fixed_download in Hnil.
    rewrite callback_returns_Fin in Hnil by (repeat constructor; lra).
    discriminate Hnil.
  - exact H.
Defined.

Lemma update_plot_without_rise_witness :
  exists fig,
    fst (update_plot (G := counter_random) (fun x => x)
           (fixed_download [100; 99; 99]) "AAPL" "" "2023-01-01"
           "2023-12-31" 21 "jump_diffusion" 30 0%Z) = inr fig
    /\ shape 252 30 (price_simulations fig)
    /\ entries (fun x => x = NaN) (price_simulations fig).
Proof.
  apply (update_plot_without_rise (G := counter_random) (fun x => x)
           (fixed_download [100; 99; 99]) "AAPL" "" "2023-01-01"
           "2023-12-31" 21 30 0%Z [100; 99; 99]).
  - reflexivity.
  - simpl. lia.
  - repeat constructor; lra.
  - unfold Rpositive. simpl.
    destruct (Rlt_dec 0 (99 / 100 - 1)) as [H|_]; [lra|].
    destruct (Rlt_dec 0 (99 / 99 - 1)) as [H|_]; [lra|reflexivity].
  - lia.
Defined.

Lemma generate_simulations_always_clipped_witness :
  exists M,
    fst (generate_simulations (G := counter_random) rounded_scenario "normal"
           1 None 0%Z) = inr M
    /\ shape 252 1 M
    /\ entries (nan_or_within 0.01 3000) M.
Proof.
  destruct (brownian_nonnegative (G := counter_random) rounded_scenario
              "normal" 1 None 0%Z) as (M & s' & HM).
  - right. reflexivity.
  - lia.
  - exists M.
    assert (H : fst (generate_simulations (G := counter_random)
                       rounded_scenario "normal" 1 None 0%Z) = inr M)
      by now rewrite HM.
    split; [exact H|].
    exact (generate_simulations_always_clipped (G := counter_random)
             rounded_scenario "normal" 1 None 0%Z M H).
Defined.

Lemma brownian_models_reject_negative_witness :
  generate_simulations (G := counter_random) rounded_scenario "lognormal"
    (-1) None 0%Z = (inl ValueError, 42%Z).
Proof.
  apply (brownian_models_reject_negative (G := counter_random)
           rounded_scenario "lognormal" (-1) None 0%Z).
  - left. reflexivity.
  - lia.
Defined.

Lemma update_plot_on_clean_history_witness :
  exists fig,
    fst (update_plot (G := counter_random) (fun x => x)
           (fixed_download [100; 101; 99; 102]) "AAPL" "" "2023-01-01"
           "2023-12-31" 21 "jump_diffusion" 30 0%Z) = inr fig
    /\ shape 252 30 (price_simulations fig)
    /\ entries (nan_or_within 0.01 3000) (price_simulations fig).
Proof.
  destruct (update_plot_on_clean_history (G := counter_random) (fun x => x)
              (fixed_download [100; 101; 99; 102]) "AAPL" "" "2023-01-01"
              "2023-12-31" 21 "jump_diffusion" 30 0%Z [100; 101; 99; 102])
    as (fig & Hfig & _ & Hshape & Hin).
  - reflexivity.
  - simpl. lia.
  - repeat constructor; lra.
  - lia.
  - lia.
  - right. right. reflexivity.
  - intros _. unfold Rpositive. simpl.
    destruct (Rlt_dec 0 (101 / 100 - 1)) as [_|H]; [discriminate|lra].
  - exists fig. auto.
Defined.

(** ** The amended claims on a concrete generator *)

Lemma generate_simulations_shape_and_clip_witness :
  exists M,
    fst (generate_simulations (G := counter_random) rounded_scenario
           "jump_diffusion" 30
           (Some (jump_dict (Fin 0.02) (Fin 0.01) (Fin 0.5))) 0%Z) = inr M
    /\ shape 252 30 M
    /\ entries (nan_or_within 0.01 3000) M.
Proof.
  apply (generate_simulations_shape_and_clip (G := counter_random)
           rounded_scenario "jump_diffusion" 30
           (Some (jump_dict (Fin 0.02) (Fin 0.01) (Fin 0.5))) 0%Z).
  - right. right. reflexivity.
  - lia.
  - intros _. exists (jump_dict (Fin 0.02) (Fin 0.01) (Fin 0.5)).
    exists 0.02, 0.01, 0.5. repeat split; try reflexivity; lra.
Defined.

Lemma jump_diffusion_growth_never_negative_witness :
  exists M,
    fst (generate_jump_diffusion_returns (G := counter_random)
           (Fin 0.02) (Fin 0.01) (Fin 0.5) (Fin 0.0068) (Fin 0.0252)
           252 2 0%Z) = inr M
    /\ shape 252 2 M
    /\ entries never_negative M.
Proof.
  eexists.
  destruct (jump_diffusion_growth_never_negative (G := counter_random)
              0.02 0.01 0.5 0.0068 0.0252 252 2 0%Z)
    as (H1 & H2 & H3 & _); try lra; try lia.
  split; [exact H1|]. split; [exact H2|exact H3].
Defined.

(** C9 fails on the code: with a drift of -252000 and no volatility and no
    jumps the exponent is -1000 in every period, [np.exp] underflows to 0,
    and every growth factor is 0, not strictly positive. *)
Lemma growth_factor_zero_on_underflow :
  exists M,
    fst (generate_jump_diffusion_returns (G := counter_random)
           (Fin 0) (Fin 0) (Fin 0) (Fin (-252000)) (Fin 0) 252 2 0%Z) = inr M
    /\ shape 252 2 M
    /\ entries (fun x => x = Fin 0) M
    /\ ~ entries (fun x => exists r, x = Fin r /\ 0 < r) M.
Proof.
  destruct (generate_jump_diffusion_returns_formula (G := counter_random)
              0 0 0 (-252000) 0 252 2 0%Z) as [s' H]; try lra; try lia.
  rewrite H. simpl fst.
  match goal with |- exists M, inr ?X = inr M /\ _ => remember X as M0 end.
  assert (Hshape : shape 252 2 M0).
  { subst M0. apply shape_mzip3; apply (drawn_shape (G := counter_random)). }
  assert (Hzero : entries (fun x => x = Fin 0) M0).
  { subst M0. apply entries_mzip3. intros n w z. unfold growth_of.
    rewrite fexp_underflows.
    - simpl. f_equal. lra.
    - unfold growth_exponent, exp_underflow. nra. }
  exists M0. repeat split; try assumption; try apply Hshape.
  intros Hpos. destruct Hshape as [Hrows Hcols].
  destruct M0 as [|row rest]; [discriminate Hrows|].
  inversion Hcols as [|? ? Hrow _]; subst.
  destruct row as [|x row]; [discriminate Hrow|].
  inversion Hzero as [|? ? Hz _]; subst. inversion Hz as [|? ? Hx _]; subst.
  inversion Hpos as [|? ? Hp _]; subst. inversion Hp as [|? ? Hx' _]; subst.
  destruct Hx' as (r & Hr & Hlt). injection Hr as <-. lra.
Qed.

(** The first four draws of the counter generator after seeding, in a
    one-column array. *)
Lemma counter_first_rows (n : nat) :
  exists rest,
    fst (draw_rows (G := counter_random) legacy_gauss (4 + n) 1 42%Z)
    = [IZR 0 / 2] :: [IZR 1 / 2] :: [IZR 2 / 2] :: [IZR (-2) / 2] :: rest.
Proof.
  simpl.
  match goal with
  | |- context [draw_rows ?f n 1 ?st] =>
      destruct (draw_rows (G := counter_random) f n 1 st) as [rest s']
  end.
  exists rest. reflexivity.
Qed.

(** The lognormal growth factor of the statistics 500000 and 1000: the
    exponent is 1000 times the shock. *)
Lemma steep_exponent (z : R) :
  fadd (fsub (Fin 500000) (fmul (Fin 0.5) (fsquare (Fin 1000))))
    (fmul (Fin 1000) (Fin (0 + 1 * z)))
  = Fin (1000 * z).
Proof. simpl. f_equal. lra. Qed.

(** C1 fails on the code: with the finite statistics 15, 500000 and 1000
    the lognormal growth factors overflow to infinity on the third day and
    underflow to 0 on the fourth, and the product infinity times 0 is a NaN
    that the clip leaves in the matrix. *)
Lemma overflow_meets_underflow :
  exists M r0 r1 r2 rest,
    fst (generate_simulations (G := counter_random)
           {| initial_price := Fin 15; drift := Fin 500000;
              volatility := Fin 1000 |} "lognormal" 1 None 0%Z) = inr M
    /\ M = r0 :: r1 :: r2 :: [NaN] :: rest
    /\ ~ entries (within 0.01 3000) M.
Proof.
  destruct (counter_first_rows 248) as [tl Htl].
  assert (Hdraw : drawn (G := counter_random) legacy_gauss days 1
                    (init_by_seed (NumpyRandom := counter_random) 42)
                  = [IZR 0 / 2] :: [IZR 1 / 2] :: [IZR 2 / 2]
                    :: [IZR (-2) / 2] :: tl).
  { rewrite <- Htl. reflexivity. }
  unfold generate_simulations.
  erewrite (bind_ok (G := counter_random)); [|reflexivity].
  unfold daily_returns. simpl (String.eqb _ _). cbv iota.
  erewrite bind_ok;
    [|erewrite bind_ok by (apply normal_shocks; lia); reflexivity].
  rewrite Hdraw. unfold ret. cbn [fst drift volatility initial_price].
  rewrite !mmap_mmap.
  cbn [mmap map cumprod cumprod_from zip_with].
  rewrite !steep_exponent.
  rewrite (fexp_in_range (1000 * (IZR 0 / 2)))
    by (unfold exp_underflow, exp_overflow; lra).
  rewrite (fexp_in_range (1000 * (IZR 1 / 2)))
    by (unfold exp_underflow, exp_overflow; lra).
  rewrite (fexp_overflows (1000 * (IZR 2 / 2)))
    by (unfold exp_overflow; lra).
  rewrite (fexp_underflows (1000 * (IZR (-2) / 2)))
    by (unfold exp_underflow; lra).
  assert (Hinf : fmul (fmul (Fin (exp (1000 * (IZR 0 / 2))))
                         (Fin (exp (1000 * (IZR 1 / 2))))) PInf = PInf).
  { cbn [fmul]. unfold signed_inf.
    pose proof (exp_pos (1000 * (IZR 0 / 2))).
    pose proof (exp_pos (1000 * (IZR 1 / 2))).
    destruct (Rlt_dec 0 (exp (1000 * (IZR 0 / 2))
                         * exp (1000 * (IZR 1 / 2)))) as [_|Hn];
      [reflexivity|]. exfalso. apply Hn. now apply Rmult_lt_0_compat. }
  rewrite Hinf.
  assert (Hnan : fmul PInf (Fin 0) = NaN).
  { cbn [fmul]. unfold signed_inf.
    destruct (Rlt_dec 0 0) as [H|_]; [lra|reflexivity]. }
  rewrite Hnan. cbn [fmul clip maximum minimum isnan].
  do 5 eexists. split; [reflexivity|]. split; [reflexivity|].
  intros Hall. inversion Hall as [|? ? _ H1]; subst.
  inversion H1 as [|? ? _ H2]; subst. inversion H2 as [|? ? _ H3]; subst.
  inversion H3 as [|? ? H4 _]; subst. inversion H4 as [|? ? H5 _]; subst.
  destruct H5 as (r & Hr & _). discriminate Hr.
Qed.
